(** * minigbm [helpers.c]: plane layout, handle release and reference counts

    A shallow embedding of the functions of [helpers.c] and the properties
    that the design document states about them.

    Conventions of the embedding:
    - C integers are [Z]; a store into, or arithmetic on, a [w]-bit unsigned
      object is written with [wrap w] ([uint32] for [uint32_t]).
    - [size_t] plane indices and plane counts are [nat]; the one subtraction
      on them ([num_planes - 1]) is written out in [last_plane].
    - The arrays of [struct bo] are lists read with [!!] and written with
      [<[_:=_]>]; an access outside the array is [Undefined].
    - Functions that touch memory, the kernel or [stderr] run in the small
      state monad [M]; a failed [assert] is the outcome [Aborted], reached
      after [assert] has written its own line where the state holds
      [stderr]. *)

From Stdlib Require Import ZArith Lia Bool.
From stdpp Require Import base list gmap.

Local Open Scope Z_scope.

(** ** Machine integers *)

Definition wrap (bits : Z) (x : Z) : Z := x mod 2 ^ bits.
Definition uint32 (x : Z) : Z := wrap 32 x.
Definition UINT32_MAX : Z := 2 ^ 32 - 1.

(** ** Outcomes and the state monad *)

Inductive outcome (St A : Type) : Type :=
| Returned (a : A) (s : St)   (* the call returned [a], leaving state [s] *)
| Aborted (s : St)            (* an [assert] failed in state [s]: abort() *)
| Undefined.                 (* access outside an array *)
Arguments Returned {St A} a s.
Arguments Aborted {St A} s.
Arguments Undefined {St A}.

Definition M (St A : Type) : Type := St -> outcome St A.

Definition pure {St A} (a : A) : M St A := fun s => Returned a s.

Definition bind {St A B} (m : M St A) (k : A -> M St B) : M St B :=
  fun s => match m s with
           | Returned a s' => k a s'
           | Aborted s' => Aborted s'
           | Undefined => Undefined
           end.

Definition get_state {St} : M St St := fun s => Returned s s.
Definition modify {St} (f : St -> St) : M St unit := fun s => Returned tt (f s).
Definition undefined {St A} : M St A := fun _ => Undefined.

(** An array read or write that may fall outside the array. *)
Definition defined {St A} (o : option A) : M St A :=
  match o with Some a => pure a | None => undefined end.

Notation "'let*' x ':=' m 'in' k" := (bind m (fun x => k))
  (at level 10, x name, m at level 100, k at level 200).
Notation "m ;; k" := (bind m (fun _ => k))
  (at level 100, k at level 200, right associativity).

(** [assert(c)]: nothing when [NDEBUG] is defined, abort when [c] is false.
    For a state that does not hold [stderr]. *)
Definition assert {St} (NDEBUG : bool) (c : bool) : M St unit :=
  fun s => if NDEBUG || c then Returned tt s else Aborted s.

(** [assert(c)] over a state that holds [stderr]: a failing [assert] writes
    its line ([report]) and then calls abort(). *)
Definition assert_reporting {St} (report : St -> St) (NDEBUG : bool) (c : bool)
    : M St unit :=
  fun s => if NDEBUG || c then Returned tt s else Aborted (report s).

(** ** Diagnostics written to [stderr] *)

(** The assertions of [helpers.c]. *)
Inductive assertion : Type :=
| assert_plane_lt_num_planes   (* helpers.c:21  assert(plane < drv_num_planes_from_format(format)) *)
| assert_num_planes            (* helpers.c:118 assert(num_planes) *)
| assert_one_plane.            (* helpers.c:141 assert(drv_num_planes_from_format(format) == 1) *)

Inductive diagnostic : Type :=
| Assertion_failed (a : assertion)            (* the line of a failing [assert]: file, line, function and expression *)
| UNKNOWN_FORMAT (code : Z)                   (* "drv: UNKNOWN FORMAT %d" *)
| GEM_CLOSE_failed (handle : Z) (error : Z)   (* "drv: DRM_IOCTL_GEM_CLOSE failed (handle=%x) error %d" *)
| MODE_MAP_DUMB_failed.                       (* "drv: DRM_IOCTL_MODE_MAP_DUMB failed" *)

(** ** Formats

    The [DRV_FORMAT_*] constants come from [drv.h]; they are the closed
    enumeration that the [switch] of [drv_bpp_from_format] lists.  Any other
    value of the [uint32_t] argument is [DRV_FORMAT_other code]. *)

Inductive drv_format_t : Type :=
| DRV_FORMAT_C8 | DRV_FORMAT_R8 | DRV_FORMAT_RGB332 | DRV_FORMAT_BGR233
| DRV_FORMAT_YVU420
| DRV_FORMAT_NV12
| DRV_FORMAT_RG88 | DRV_FORMAT_GR88
| DRV_FORMAT_XRGB4444 | DRV_FORMAT_XBGR4444 | DRV_FORMAT_RGBX4444
| DRV_FORMAT_BGRX4444 | DRV_FORMAT_ARGB4444 | DRV_FORMAT_ABGR4444
| DRV_FORMAT_RGBA4444 | DRV_FORMAT_BGRA4444
| DRV_FORMAT_XRGB1555 | DRV_FORMAT_XBGR1555 | DRV_FORMAT_RGBX5551
| DRV_FORMAT_BGRX5551 | DRV_FORMAT_ARGB1555 | DRV_FORMAT_ABGR1555
| DRV_FORMAT_RGBA5551 | DRV_FORMAT_BGRA5551
| DRV_FORMAT_RGB565 | DRV_FORMAT_BGR565
| DRV_FORMAT_YUYV | DRV_FORMAT_YVYU | DRV_FORMAT_UYVY | DRV_FORMAT_VYUY
| DRV_FORMAT_RGB888 | DRV_FORMAT_BGR888
| DRV_FORMAT_XRGB8888 | DRV_FORMAT_XBGR8888 | DRV_FORMAT_RGBX8888
| DRV_FORMAT_BGRX8888 | DRV_FORMAT_ARGB8888 | DRV_FORMAT_ABGR8888
| DRV_FORMAT_RGBA8888 | DRV_FORMAT_BGRA8888
| DRV_FORMAT_XRGB2101010 | DRV_FORMAT_XBGR2101010 | DRV_FORMAT_RGBX1010102
| DRV_FORMAT_BGRX1010102 | DRV_FORMAT_ARGB2101010 | DRV_FORMAT_ABGR2101010
| DRV_FORMAT_RGBA1010102 | DRV_FORMAT_BGRA1010102
| DRV_FORMAT_AYUV
| DRV_FORMAT_other (code : Z).

(** Membership in the enumeration. *)
Definition recognized (format : drv_format_t) : bool :=
  match format with
  | DRV_FORMAT_other _ => false
  | _ => true
  end.

(** ** FormatInfo, the external collaborator

    [drv_num_planes_from_format], [drv_stride_from_format] and
    [drv_size_from_format] live in [drv.c].  The functions of [helpers.c]
    are embedded over any such table ([numPlanes], [strideForPlane],
    [sizeForPlane] below); [FormatInfo] gives one table to run them on. *)

Module FormatInfo.

(** Modelled from the spec: [drv_num_planes_from_format] of [drv.c], the
    plane count of a format.  One plane for the packed formats, two for the
    semi-planar luma/chroma format, three for the planar one; a code outside
    the enumeration has no plane (it is the precondition
    [numPlanes(format) >= 1] that an unrecognized format fails). *)
Definition drv_num_planes_from_format (format : drv_format_t) : nat :=
  match format with
  | DRV_FORMAT_NV12 => 2
  | DRV_FORMAT_YVU420 => 3
  | DRV_FORMAT_other _ => 0
  | _ => 1
  end.

(** Bits of the first plane's sample, as the table of
    [drv_bpp_from_format] gives them for plane 0. *)
Definition bpp0 (format : drv_format_t) : Z :=
  match format with
  | DRV_FORMAT_C8 | DRV_FORMAT_R8 | DRV_FORMAT_RGB332 | DRV_FORMAT_BGR233
  | DRV_FORMAT_YVU420 | DRV_FORMAT_NV12 => 8
  | DRV_FORMAT_RGB888 | DRV_FORMAT_BGR888 => 24
  | DRV_FORMAT_XRGB8888 | DRV_FORMAT_XBGR8888 | DRV_FORMAT_RGBX8888
  | DRV_FORMAT_BGRX8888 | DRV_FORMAT_ARGB8888 | DRV_FORMAT_ABGR8888
  | DRV_FORMAT_RGBA8888 | DRV_FORMAT_BGRA8888
  | DRV_FORMAT_XRGB2101010 | DRV_FORMAT_XBGR2101010 | DRV_FORMAT_RGBX1010102
  | DRV_FORMAT_BGRX1010102 | DRV_FORMAT_ARGB2101010 | DRV_FORMAT_ABGR2101010
  | DRV_FORMAT_RGBA1010102 | DRV_FORMAT_BGRA1010102
  | DRV_FORMAT_AYUV => 32
  | DRV_FORMAT_other _ => 0
  | _ => 16
  end.

(** Modelled from the spec: [drv_stride_from_format] of [drv.c].  The row
    of the first plane is [width] samples of [bpp0] bits rounded up to
    bytes; the chroma planes of the planar format have half that row, the
    interleaved chroma plane of the semi-planar format keeps it (width 4
    gives stride 4 on both planes of the semi-planar format, width 2 gives
    stride 8 for a 32-bit format). *)
Definition drv_stride_from_format (format : drv_format_t) (width : Z)
    (plane : nat) : Z :=
  let stride := width * ((bpp0 format + 7) / 8) in
  match format, plane with
  | DRV_FORMAT_YVU420, S _ => stride / 2
  | _, _ => stride
  end.

(** Modelled from the spec: [drv_size_from_format] of [drv.c].  A plane
    takes [stride] bytes for each of its rows; the chroma planes of the two
    subsampled formats have half the rows, rounded up (stride 4 and height 4
    give 16 bytes of luma and 8 bytes of chroma). *)
Definition drv_size_from_format (format : drv_format_t) (stride height : Z)
    (plane : nat) : Z :=
  let vertical_subsampling :=
    match format, plane with
    | DRV_FORMAT_NV12, S _ | DRV_FORMAT_YVU420, S _ => 2
    | _, _ => 1
    end in
  stride * ((height + vertical_subsampling - 1) / vertical_subsampling).

End FormatInfo.

(** ** [drv_bpp_from_format] *)

Section Bpp.

Variable NDEBUG : bool.
Variable numPlanes : drv_format_t -> nat.

(** The state is the text written to [stderr] so far. *)
Definition drv_bpp_from_format (format : drv_format_t) (plane : nat)
    : M (list diagnostic) Z :=
  assert_reporting
    (fun stderr => stderr ++ [Assertion_failed assert_plane_lt_num_planes])
    NDEBUG (plane <? numPlanes format)%nat ;;
  match format with
  | DRV_FORMAT_C8
  | DRV_FORMAT_R8
  | DRV_FORMAT_RGB332
  | DRV_FORMAT_BGR233
  | DRV_FORMAT_YVU420 =>
      pure 8
  | DRV_FORMAT_NV12 =>
      pure (if (plane =? 0)%nat then 8 else 16)
  | DRV_FORMAT_RG88
  | DRV_FORMAT_GR88
  | DRV_FORMAT_XRGB4444
  | DRV_FORMAT_XBGR4444
  | DRV_FORMAT_RGBX4444
  | DRV_FORMAT_BGRX4444
  | DRV_FORMAT_ARGB4444
  | DRV_FORMAT_ABGR4444
  | DRV_FORMAT_RGBA4444
  | DRV_FORMAT_BGRA4444
  | DRV_FORMAT_XRGB1555
  | DRV_FORMAT_XBGR1555
  | DRV_FORMAT_RGBX5551
  | DRV_FORMAT_BGRX5551
  | DRV_FORMAT_ARGB1555
  | DRV_FORMAT_ABGR1555
  | DRV_FORMAT_RGBA5551
  | DRV_FORMAT_BGRA5551
  | DRV_FORMAT_RGB565
  | DRV_FORMAT_BGR565
  | DRV_FORMAT_YUYV
  | DRV_FORMAT_YVYU
  | DRV_FORMAT_UYVY
  | DRV_FORMAT_VYUY =>
      pure 16
  | DRV_FORMAT_RGB888
  | DRV_FORMAT_BGR888 =>
      pure 24
  | DRV_FORMAT_XRGB8888
  | DRV_FORMAT_XBGR8888
  | DRV_FORMAT_RGBX8888
  | DRV_FORMAT_BGRX8888
  | DRV_FORMAT_ARGB8888
  | DRV_FORMAT_ABGR8888
  | DRV_FORMAT_RGBA8888
  | DRV_FORMAT_BGRA8888
  | DRV_FORMAT_XRGB2101010
  | DRV_FORMAT_XBGR2101010
  | DRV_FORMAT_RGBX1010102
  | DRV_FORMAT_BGRX1010102
  | DRV_FORMAT_ARGB2101010
  | DRV_FORMAT_ABGR2101010
  | DRV_FORMAT_RGBA1010102
  | DRV_FORMAT_BGRA1010102
  | DRV_FORMAT_AYUV =>
      pure 32
  | DRV_FORMAT_other code =>
      modify (fun stderr => stderr ++ [UNKNOWN_FORMAT code]) ;;
      pure 0
  end.

End Bpp.

(** ** Buffer objects *)

Definition DRV_MAX_PLANES : nat := 4.

(** The fields of [struct bo] that [helpers.c] reads and writes.  The four
    arrays have [DRV_MAX_PLANES] entries of [uint32_t]. *)
Record bo : Type := mk_bo {
  num_planes : nat;
  handles : list Z;
  offsets : list Z;
  sizes : list Z;
  strides : list Z;
  total_size : Z
}.

Definition bo_arrays (b : bo) : Prop :=
  length (handles b) = DRV_MAX_PLANES /\
  length (offsets b) = DRV_MAX_PLANES /\
  length (sizes b) = DRV_MAX_PLANES /\
  length (strides b) = DRV_MAX_PLANES.

Definition set_offsets (a : list Z) (b : bo) : bo :=
  mk_bo (num_planes b) (handles b) a (sizes b) (strides b) (total_size b).
Definition set_sizes (a : list Z) (b : bo) : bo :=
  mk_bo (num_planes b) (handles b) (offsets b) a (strides b) (total_size b).
Definition set_strides (a : list Z) (b : bo) : bo :=
  mk_bo (num_planes b) (handles b) (offsets b) (sizes b) a (total_size b).
Definition set_total_size (v : Z) (b : bo) : bo :=
  mk_bo (num_planes b) (handles b) (offsets b) (sizes b) (strides b) v.

(** [field[i]] as an rvalue. *)
Definition load (field : bo -> list Z) (i : nat) : M bo Z :=
  fun b => defined (field b !! i) b.

(** [field[i] = v] for a [uint32_t] array. *)
Definition store (field : bo -> list Z) (update : list Z -> bo -> bo)
    (i : nat) (v : Z) : M bo unit :=
  fun b => if (i <? length (field b))%nat
           then Returned tt (update (<[i := uint32 v]> (field b)) b)
           else Undefined.

(** [n - 1] on a [size_t] used as an index: at [n = 0] it wraps to
    [SIZE_MAX], which lies outside every plane array. *)
Definition last_plane (n : nat) : option nat :=
  match n with
  | O => None
  | S k => Some k
  end.

(** A buffer object of three planes, the first two on one handle. *)
Definition bo_shared : bo :=
  mk_bo 3 [5; 5; 9; 0] [0; 16; 24; 0] [16; 8; 4; 0] [4; 4; 4; 0] 28.

(** A zeroed buffer object of [n] planes. *)
Definition bo_zero (n : nat) : bo :=
  mk_bo n [0; 0; 0; 0] [0; 0; 0; 0] [0; 0; 0; 0] [0; 0; 0; 0] 0.

(** ** [drv_bo_from_format] *)

Section Layout.

Variable NDEBUG : bool.
Variable numPlanes : drv_format_t -> nat.
Variable strideForPlane : drv_format_t -> Z -> nat -> Z.
Variable sizeForPlane : drv_format_t -> Z -> Z -> nat -> Z.

(** The [for] loop, [count] iterations from plane [p] with the running
    [uint32_t offset]; it yields the offset it ends with. *)
Fixpoint bo_from_format_planes (format : drv_format_t) (width height : Z)
    (count p : nat) (offset : Z) : M bo Z :=
  match count with
  | O => pure offset
  | S count' =>
      store strides set_strides p (strideForPlane format width p) ;;
      let* stride := load strides p in
      store sizes set_sizes p (sizeForPlane format stride height p) ;;
      store offsets set_offsets p offset ;;
      let* size := load sizes p in
      bo_from_format_planes format width height count' (S p)
        (uint32 (offset + size))
  end.

Definition drv_bo_from_format (width height : Z) (format : drv_format_t)
    : M bo Z :=
  let num_planes' := numPlanes format in
  assert NDEBUG (negb (num_planes' =? 0)%nat) ;;
  bo_from_format_planes format width height num_planes' 0 0 ;;
  let* b := get_state in
  let* last := defined (last_plane (num_planes b)) in
  let* offset_last := load offsets last in
  let* size_last := load sizes last in
  modify (set_total_size (uint32 (offset_last + size_last))) ;;
  pure 0.

(** What the loop stores for plane [p]. *)
Definition plane_stride (format : drv_format_t) (width : Z) (p : nat) : Z :=
  uint32 (strideForPlane format width p).
Definition plane_size (format : drv_format_t) (width height : Z) (p : nat) : Z :=
  uint32 (sizeForPlane format (plane_stride format width p) height p).

(** The buffer object after the loop's turn for plane [p]. *)
Definition plane_laid_out (format : drv_format_t) (width height : Z)
    (p : nat) (offset : Z) (b : bo) : bo :=
  mk_bo (num_planes b) (handles b)
    (<[p := uint32 offset]> (offsets b))
    (<[p := plane_size format width height p]> (sizes b))
    (<[p := plane_stride format width p]> (strides b))
    (total_size b).

(** Bytes of the first [n] planes together, without wrap-around. *)
Fixpoint planes_bytes (format : drv_format_t) (width height : Z) (n : nat) : Z :=
  match n with
  | O => 0
  | S k => planes_bytes format width height k + plane_size format width height k
  end.

End Layout.

(** ** The kernel behind [drmIoctl] and [mmap] *)

Inductive ioctl_request : Type :=
| DRM_IOCTL_GEM_CLOSE (handle : Z)
| DRM_IOCTL_MODE_MAP_DUMB (handle : Z).

(** The only field of [struct map_info] that [helpers.c] touches,
    [data->length], a [size_t]. *)
Record map_info : Type := mk_map_info { map_info_length : Z }.

(** [(void * ) -1] *)
Definition MAP_FAILED : Z := -1.

Section Device.

(** The kernel is any state machine: a request yields the return value of
    [drmIoctl], the word the kernel wrote back into the argument (the
    mapping offset of [MODE_MAP_DUMB]) and the kernel's next state. *)
Variable kernel : Type.
Variable drmIoctl : ioctl_request -> kernel -> Z * Z * kernel.
Variable mmap : Z -> Z -> kernel -> Z * kernel.
Variable size_bits : Z.

(** The open device: the kernel, the requests issued so far with their
    return values (oldest first), and [stderr]. *)
Record device : Type := mk_device {
  dev_kernel : kernel;
  dev_ioctls : list (ioctl_request * Z);
  dev_stderr : list diagnostic
}.

Definition issue (request : ioctl_request) : M device (Z * Z) :=
  fun d =>
    let '(ret, out, k) := drmIoctl request (dev_kernel d) in
    Returned (ret, out)
      (mk_device k (dev_ioctls d ++ [(request, ret)]) (dev_stderr d)).

Definition fprintf_stderr (msg : diagnostic) : M device unit :=
  modify (fun d => mk_device (dev_kernel d) (dev_ioctls d) (dev_stderr d ++ [msg])).

Definition call_mmap (length offset : Z) : M device Z :=
  fun d =>
    let '(addr, k) := mmap length offset (dev_kernel d) in
    Returned addr (mk_device k (dev_ioctls d) (dev_stderr d)).

(** *** [drv_gem_bo_destroy] *)

(** The inner [for (i = 0; i < plane; i++) if (...) break;], [count]
    iterations from [i]: the value of [i] when the loop is left. *)
Fixpoint earlier_plane (b : bo) (plane count i : nat) : option nat :=
  match count with
  | O => Some i
  | S count' =>
      match handles b !! i, handles b !! plane with
      | Some handle_i, Some handle_plane =>
          if handle_i =? handle_plane then Some i
          else earlier_plane b plane count' (S i)
      | _, _ => None
      end
  end.

(** One turn of the outer loop: the value of [error] after it. *)
Definition gem_bo_destroy_plane (b : bo) (plane : nat) (error : Z) : M device Z :=
  let* i := defined (earlier_plane b plane plane 0) in
  if negb (i =? plane)%nat then pure error
  else
    let* handle := defined (handles b !! plane) in
    let* reply := issue (DRM_IOCTL_GEM_CLOSE handle) in
    let ret := fst reply in
    if negb (ret =? 0) then
      fprintf_stderr (GEM_CLOSE_failed handle ret) ;;
      pure ret
    else pure error.

Fixpoint gem_bo_destroy_planes (b : bo) (count plane : nat) (error : Z)
    : M device Z :=
  match count with
  | O => pure error
  | S count' =>
      let* error' := gem_bo_destroy_plane b plane error in
      gem_bo_destroy_planes b count' (S plane) error'
  end.

Definition drv_gem_bo_destroy (b : bo) : M device Z :=
  gem_bo_destroy_planes b (num_planes b) 0 0.

(** *** [drv_dumb_bo_map] *)

(** The accumulation loop, [count] iterations from [i], on the value of
    [data->length]. *)
Fixpoint dumb_bo_map_length (b : bo) (plane count i : nat) (length : Z)
    : option Z :=
  match count with
  | O => Some length
  | S count' =>
      match handles b !! i, handles b !! plane with
      | Some handle_i, Some handle_plane =>
          if handle_i =? handle_plane then
            match sizes b !! i with
            | Some size =>
                dumb_bo_map_length b plane count' (S i)
                  (wrap size_bits (length + size))
            | None => None
            end
          else dumb_bo_map_length b plane count' (S i) length
      | _, _ => None
      end
  end.

(** The call yields the returned pointer and the contents of [*data]. *)
Definition drv_dumb_bo_map (b : bo) (data : map_info) (plane : nat)
    : M device (Z * map_info) :=
  let* handle := defined (handles b !! plane) in
  let* reply := issue (DRM_IOCTL_MODE_MAP_DUMB handle) in
  let ret := fst reply in
  let map_dumb_offset := snd reply in
  if negb (ret =? 0) then
    fprintf_stderr MODE_MAP_DUMB_failed ;;
    pure (MAP_FAILED, data)
  else
    let* length :=
      defined (dumb_bo_map_length b plane (num_planes b) 0 (map_info_length data)) in
    let* addr := call_mmap length map_dumb_offset in
    pure (addr, mk_map_info length).

End Device.

Arguments mk_device {kernel} _ _ _.
Arguments dev_kernel {kernel} _.
Arguments dev_ioctls {kernel} _.
Arguments dev_stderr {kernel} _.

(** ** Handle reference counts *)

Section RefCount.

(** Width of [uintptr_t] and of the [void *] values of the table. *)
Variable uintptr_bits : Z.

Definition uintptr (x : Z) : Z := wrap uintptr_bits x.
Definition UINTPTR_MAX : Z := 2 ^ uintptr_bits - 1.

(** [drv->buffer_table], libdrm's hash table from handle to [void *]. *)
Record driver : Type := mk_driver { buffer_table : gmap Z Z }.

(** libdrm: [drmHashLookup] finds the value of a key ([Some], return value
    0) or not ([None], return value 1); [drmHashDelete] removes a key and
    does nothing when it is not there; [drmHashInsert] adds a key that is
    not in the table and leaves a key that is there alone. *)
Definition drmHashLookup (key : Z) : M driver (option Z) :=
  fun drv => Returned (buffer_table drv !! key) drv.
Definition drmHashDelete (key : Z) : M driver unit :=
  modify (fun drv => mk_driver (delete key (buffer_table drv))).
Definition drmHashInsert (key : Z) (value : Z) : M driver unit :=
  modify (fun drv =>
            match buffer_table drv !! key with
            | Some _ => drv
            | None => mk_driver (<[key := value]> (buffer_table drv))
            end).

Definition drv_get_reference_count (b : bo) (plane : nat) : M driver Z :=
  let* handle := defined (handles b !! plane) in
  let* found := drmHashLookup handle in
  match found with
  | Some count => pure (uintptr count)
  | None => pure 0
  end.

Definition drv_increment_reference_count (b : bo) (plane : nat)
    : M driver unit :=
  let* num := drv_get_reference_count b plane in
  let* handle := defined (handles b !! plane) in
  drmHashDelete handle ;;
  drmHashInsert handle (uintptr (num + 1)).

Definition drv_decrement_reference_count (b : bo) (plane : nat)
    : M driver unit :=
  let* num := drv_get_reference_count b plane in
  let* handle := defined (handles b !! plane) in
  drmHashDelete handle ;;
  if 0 <? num then drmHashInsert handle (uintptr (num - 1))
  else pure tt.

(** The count a reader of the table sees for a handle. *)
Definition count_of (drv : driver) (handle : Z) : Z :=
  match buffer_table drv !! handle with
  | Some count => uintptr count
  | None => 0
  end.

End RefCount.

Definition empty_table : driver := mk_driver ∅.

(** ** The design document's notions *)

(** Handles in the order of their first occurrence: a handle is dropped
    when it was [seen] on an earlier plane. *)
Fixpoint first_occurrences (seen l : list Z) : list Z :=
  match l with
  | [] => []
  | h :: l' =>
      if bool_decide (h ∈ seen) then first_occurrences (seen ++ [h]) l'
      else h :: first_occurrences (seen ++ [h]) l'
  end.

(** The handles of the planes of a buffer object. *)
Definition plane_handles (b : bo) : list Z := take (num_planes b) (handles b).

(** Sum of [size[i]] over the planes [i] with [handle[i] == handle]. *)
Definition sum_list (l : list Z) : Z := foldr Z.add 0 l.
Definition shared_sizes (hs ss : list Z) (handle : Z) : list Z :=
  snd <$> filter (fun plane => plane.1 = handle) (zip hs ss).
Definition shared_bytes (b : bo) (handle : Z) : Z :=
  sum_list (shared_sizes (plane_handles b) (sizes b) handle).

(** The return values of the failed requests among [replies]. *)
Definition errors (replies : list Z) : list Z :=
  filter (fun ret => ret ≠ 0) replies.
Definition last_error (replies : list Z) : Z := default 0 (last (errors replies)).

(** What [drv_gem_bo_destroy] prints for a list of answered requests. *)
Definition close_failures (answered : list (ioctl_request * Z)) : list diagnostic :=
  omap (fun a => match a with
                 | (DRM_IOCTL_GEM_CLOSE handle, ret) =>
                     if ret =? 0 then None else Some (GEM_CLOSE_failed handle ret)
                 | _ => None
                 end) answered.

(** ** A kernel to run the device functions on

    It owns no state; [GEM_CLOSE] of handle [h] fails with [- h] when [h] is
    in [bad] and succeeds otherwise, [MODE_MAP_DUMB] succeeds with mapping
    offset [4096 * handle], [mmap] answers the offset it is given. *)
Definition fake_ioctl (bad : list Z) (request : ioctl_request) (k : unit)
    : Z * Z * unit :=
  match request with
  | DRM_IOCTL_GEM_CLOSE handle =>
      (if bool_decide (handle ∈ bad) then - handle else 0, 0, k)
  | DRM_IOCTL_MODE_MAP_DUMB handle =>
      (if bool_decide (handle ∈ bad) then -1 else 0, 4096 * handle, k)
  end.
Definition fake_mmap (length offset : Z) (k : unit) : Z * unit := (offset, k).

(** A kernel that answers as ioctl(2) does, whose return value [drmIoctl]
    hands on: -1 for a request on a handle in [bad], 0 for any other. *)
Definition refusing_ioctl (bad : list Z) (request : ioctl_request) (k : unit)
    : Z * Z * unit :=
  match request with
  | DRM_IOCTL_GEM_CLOSE handle
  | DRM_IOCTL_MODE_MAP_DUMB handle =>
      (if bool_decide (handle ∈ bad) then -1 else 0, 0, k)
  end.
Definition fake_device : device unit := mk_device tt [] [].

(** ** [drv_log_base2] *)

(** The loop [while (value >>= 1) ++ret;] with at most [fuel] turns;
    [None] when the turns run out. *)
Fixpoint log_base2_loop (fuel : nat) (value ret : Z) : option Z :=
  match fuel with
  | O => None
  | S fuel' =>
      let value' := uint32 (Z.shiftr value 1) in
      if value' =? 0 then Some ret
      else log_base2_loop fuel' value' (ret + 1)
  end.

(** A [uint32_t] is exhausted after 32 shifts. *)
Definition drv_log_base2 (value : Z) : option Z :=
  option_map uint32 (log_base2_loop 32 (uint32 value) 0).

(** ** Dumb buffers: [drv_dumb_bo_create] and [drv_dumb_bo_destroy] *)

Inductive dumb_request : Type :=
| DRM_IOCTL_MODE_CREATE_DUMB (height width bpp flags : Z)
| DRM_IOCTL_MODE_DESTROY_DUMB (handle : Z).

(** What the kernel writes back into [struct drm_mode_create_dumb]. *)
Record create_dumb_reply : Type := mk_create_dumb_reply {
  reply_handle : Z;
  reply_pitch : Z;
  reply_size : Z
}.

Inductive dumb_diagnostic : Type :=
| MODE_CREATE_DUMB_failed                  (* "drv: DRM_IOCTL_MODE_CREATE_DUMB failed" *)
| MODE_DESTROY_DUMB_failed (handle : Z).   (* "drv: DRM_IOCTL_MODE_DESTROY_DUMB failed (handle=%x)" *)

Definition set_handles (a : list Z) (b : bo) : bo :=
  mk_bo (num_planes b) a (offsets b) (sizes b) (strides b) (total_size b).

(** The buffer object that a successful allocation leaves. *)
Definition created (b : bo) (reply : create_dumb_reply) : bo :=
  mk_bo (num_planes b)
    (<[0%nat := uint32 (reply_handle reply)]> (handles b))
    (<[0%nat := 0]> (offsets b))
    (<[0%nat := uint32 (reply_size reply)]> (sizes b))
    (<[0%nat := uint32 (reply_pitch reply)]> (strides b))
    (uint32 (reply_size reply)).

(** Run a computation on a part of the state. *)
Definition zoom {St Sub A} (part : St -> Sub) (update : Sub -> St -> St)
    (m : M Sub A) : M St A :=
  fun s => match m (part s) with
           | Returned a sub => Returned a (update sub s)
           | Aborted sub => Aborted (update sub s)
           | Undefined => Undefined
           end.

Section Dumb.

Variable NDEBUG : bool.
Variable numPlanes : drv_format_t -> nat.
Variable kernel : Type.
Variable drmIoctl : dumb_request -> kernel -> Z * create_dumb_reply * kernel.

(** The buffer object, the kernel, the requests issued so far with their
    return values (oldest first), and [stderr]. *)
Record dumb_state : Type := mk_dumb_state {
  ds_bo : bo;
  ds_kernel : kernel;
  ds_ioctls : list (dumb_request * Z);
  ds_stderr : list (diagnostic + dumb_diagnostic)
}.

Definition on_bo {A} (m : M bo A) : M dumb_state A :=
  zoom ds_bo
    (fun b s => mk_dumb_state b (ds_kernel s) (ds_ioctls s) (ds_stderr s)) m.

(** A callee that writes its own lines to [stderr]: they follow what is
    there. *)
Definition on_stderr {A} (m : M (list diagnostic) A) : M dumb_state A :=
  zoom (fun _ => [])
    (fun out s => mk_dumb_state (ds_bo s) (ds_kernel s) (ds_ioctls s)
                    (ds_stderr s ++ (inl <$> out))) m.

Definition issue_dumb (request : dumb_request) : M dumb_state (Z * create_dumb_reply) :=
  fun s =>
    let '(ret, out, k) := drmIoctl request (ds_kernel s) in
    Returned (ret, out)
      (mk_dumb_state (ds_bo s) k (ds_ioctls s ++ [(request, ret)]) (ds_stderr s)).

Definition fprintf_dumb (msg : dumb_diagnostic) : M dumb_state unit :=
  modify (fun s => mk_dumb_state (ds_bo s) (ds_kernel s) (ds_ioctls s)
                     (ds_stderr s ++ [inr msg])).

Definition drv_dumb_bo_create (width height : Z) (format : drv_format_t)
    (flags : Z) : M dumb_state Z :=
  assert_reporting
    (fun s => mk_dumb_state (ds_bo s) (ds_kernel s) (ds_ioctls s)
                (ds_stderr s ++ [inl (Assertion_failed assert_one_plane)]))
    NDEBUG (numPlanes format =? 1)%nat ;;
  let* bpp := on_stderr (drv_bpp_from_format NDEBUG numPlanes format 0) in
  let* reply := issue_dumb (DRM_IOCTL_MODE_CREATE_DUMB height width bpp 0) in
  let ret := fst reply in
  let create_dumb := snd reply in
  if negb (ret =? 0) then
    fprintf_dumb MODE_CREATE_DUMB_failed ;;
    pure ret
  else
    on_bo (store handles set_handles 0 (reply_handle create_dumb)) ;;
    on_bo (store offsets set_offsets 0 0) ;;
    on_bo (store sizes set_sizes 0 (reply_size create_dumb)) ;;
    let* size := on_bo (load sizes 0) in
    on_bo (modify (set_total_size size)) ;;
    on_bo (store strides set_strides 0 (reply_pitch create_dumb)) ;;
    pure 0.

Definition drv_dumb_bo_destroy : M dumb_state Z :=
  let* handle := on_bo (load handles 0) in
  let* reply := issue_dumb (DRM_IOCTL_MODE_DESTROY_DUMB handle) in
  let ret := fst reply in
  if negb (ret =? 0) then
    fprintf_dumb (MODE_DESTROY_DUMB_failed handle) ;;
    pure ret
  else pure 0.

End Dumb.

Arguments mk_dumb_state {kernel} _ _ _ _.
Arguments ds_bo {kernel} _.
Arguments ds_kernel {kernel} _.
Arguments ds_ioctls {kernel} _.
Arguments ds_stderr {kernel} _.

(** A kernel for the dumb requests: it hands out handle 7 with a pitch of
    [width * bpp / 8] rounded up to 64 bytes and [pitch * height] bytes, and
    refuses every request when [ok] is false. *)
Definition fake_dumb_ioctl (ok : bool) (request : dumb_request) (k : unit)
    : Z * create_dumb_reply * unit :=
  match request with
  | DRM_IOCTL_MODE_CREATE_DUMB height width bpp flags =>
      let pitch := (width * bpp / 8 + 63) / 64 * 64 in
      (if ok then 0 else -1, mk_create_dumb_reply 7 pitch (pitch * height), k)
  | DRM_IOCTL_MODE_DESTROY_DUMB handle =>
      (if ok then 0 else -1, mk_create_dumb_reply 0 0 0, k)
  end.

(** ** Repetition *)

Fixpoint times {St} (n : nat) (m : M St unit) : M St unit :=
  match n with
  | O => pure tt
  | S n' => m ;; times n' m
  end.

(** * Properties *)

(** ** Machine arithmetic *)

Lemma wrap_wrap bits x : wrap bits (wrap bits x) = wrap bits x.
Proof. unfold wrap. apply Zmod_mod. Qed.

Lemma wrap_add_l bits x y : wrap bits (wrap bits x + y) = wrap bits (x + y).
Proof. unfold wrap. apply Zplus_mod_idemp_l. Qed.

Lemma wrap_small bits x : 0 <= x < 2 ^ bits -> wrap bits x = x.
Proof. unfold wrap. apply Z.mod_small. Qed.

Lemma wrap_range bits x : 0 <= bits -> 0 <= wrap bits x < 2 ^ bits.
Proof. intros Hb. unfold wrap. apply Z.mod_pos_bound. apply Z.pow_pos_nonneg; lia. Qed.

Lemma wrap_add_cancel bits x y :
  0 <= x < 2 ^ bits -> 0 <= y -> wrap bits (x + y) = y -> x = 0.
Proof.
  unfold wrap. generalize (2 ^ bits). intros m Hx Hy Heq.
  pose proof (Z.mod_pos_bound (x + y) m ltac:(lia)) as Hbound.
  rewrite Heq in Hbound.
  destruct (Z.lt_ge_cases (x + y) m) as [Hfit|Hover].
  - rewrite Z.mod_small in Heq by lia. lia.
  - assert (Hm : (x + y) mod m = x + y - m)
      by (symmetry; apply (Z.mod_unique _ _ 1); lia).
    lia.
Qed.

Lemma uint32_range x : 0 <= uint32 x <= UINT32_MAX.
Proof.
  pose proof (wrap_range 32 x ltac:(lia)) as H.
  unfold uint32, UINT32_MAX. lia.
Qed.

Lemma uint32_small x : 0 <= x <= UINT32_MAX -> uint32 x = x.
Proof. intros H. apply wrap_small. unfold UINT32_MAX in H. lia. Qed.

(** ** The monad *)

Lemma bind_Returned {St A B} (m : M St A) (k : A -> M St B) s a s' :
  m s = Returned a s' -> bind m k s = k a s'.
Proof. intros H. unfold bind. now rewrite H. Qed.

Lemma bind_inv {St A B} (m : M St A) (k : A -> M St B) s b s' :
  bind m k s = Returned b s' ->
  exists a s1, m s = Returned a s1 /\ k a s1 = Returned b s'.
Proof.
  unfold bind. destruct (m s) as [a s1| |]; try discriminate. eauto.
Qed.

Lemma assert_passes {St} NDEBUG c (s : St) :
  NDEBUG || c = true -> assert NDEBUG c s = Returned tt s.
Proof. intros H. unfold assert. now rewrite H. Qed.

Lemma assert_aborts {St} (s : St) : assert false false s = Aborted s.
Proof. reflexivity. Qed.

Lemma assert_reporting_passes {St} (report : St -> St) NDEBUG c (s : St) :
  NDEBUG || c = true -> assert_reporting report NDEBUG c s = Returned tt s.
Proof. intros H. unfold assert_reporting. now rewrite H. Qed.

(** ** Bits per pixel *)

Section BppFacts.

Variable NDEBUG : bool.
Variable numPlanes : drv_format_t -> nat.

Lemma recognized_false format :
  recognized format = false <-> exists code, format = DRV_FORMAT_other code.
Proof.
  split.
  - destruct format; try discriminate. eauto.
  - intros [code ->]. reflexivity.
Qed.

(** C8. For the semi-planar luma/chroma format NV12, which has two planes,
    [drv_bpp_from_format] returns 8 for plane 0 and 16 for plane 1 (and
    prints nothing): the format has an entry of its own that looks at the
    plane index. *)
Theorem drv_bpp_from_format_NV12 (err : list diagnostic) :
  numPlanes DRV_FORMAT_NV12 = 2%nat ->
  drv_bpp_from_format NDEBUG numPlanes DRV_FORMAT_NV12 0 err = Returned 8 err /\
  drv_bpp_from_format NDEBUG numPlanes DRV_FORMAT_NV12 1 err = Returned 16 err.
Proof.
  intros Hplanes. unfold drv_bpp_from_format.
  split.
  - rewrite (bind_Returned _ _ err tt err); [reflexivity|].
    apply assert_reporting_passes. rewrite Hplanes. apply orb_true_r.
  - rewrite (bind_Returned _ _ err tt err); [reflexivity|].
    apply assert_reporting_passes. rewrite Hplanes. apply orb_true_r.
Qed.

(** C9, as the code has it.  For a format value outside the enumeration,
    [drv_bpp_from_format] prints "UNKNOWN FORMAT" and returns 0 when its
    assertion [plane < numPlanes(format)] holds or is compiled out; when the
    assertion is active and fails, [assert] writes its own line and the call
    aborts: it returns nothing and the "UNKNOWN FORMAT" line is not
    printed. *)
Theorem drv_bpp_from_format_unknown (code : Z) (plane : nat)
    (err : list diagnostic) :
  drv_bpp_from_format NDEBUG numPlanes (DRV_FORMAT_other code) plane err =
    if NDEBUG || (plane <? numPlanes (DRV_FORMAT_other code))%nat
    then Returned 0 (err ++ [UNKNOWN_FORMAT code])
    else Aborted (err ++ [Assertion_failed assert_plane_lt_num_planes]).
Proof.
  unfold drv_bpp_from_format, bind, assert_reporting.
  destruct (NDEBUG || (plane <? numPlanes (DRV_FORMAT_other code))%nat);
    reflexivity.
Qed.

End BppFacts.

(** C8 on the reference table. *)
Lemma drv_bpp_from_format_NV12_witness :
  FormatInfo.drv_num_planes_from_format DRV_FORMAT_NV12 = 2%nat /\
  drv_bpp_from_format false FormatInfo.drv_num_planes_from_format
    DRV_FORMAT_NV12 0 [] = Returned 8 [] /\
  drv_bpp_from_format false FormatInfo.drv_num_planes_from_format
    DRV_FORMAT_NV12 1 [] = Returned 16 [].
Proof.
  split; [reflexivity|].
  apply (drv_bpp_from_format_NV12 false
           FormatInfo.drv_num_planes_from_format []).
  reflexivity.
Defined.

(** C9 as stated fails: with assertions active and a table that gives an
    unknown code no plane, the call on format code 0, plane 0 aborts after
    the line of the failed assertion; it does not return and the
    "UNKNOWN FORMAT" line is not printed. *)
Lemma drv_bpp_from_format_unknown_aborts :
  recognized (DRV_FORMAT_other 0) = false /\
  drv_bpp_from_format false FormatInfo.drv_num_planes_from_format
    (DRV_FORMAT_other 0) 0 [] =
    Aborted [Assertion_failed assert_plane_lt_num_planes] /\
  ~ (exists v err', drv_bpp_from_format false
        FormatInfo.drv_num_planes_from_format (DRV_FORMAT_other 0) 0 []
      = Returned v err').
Proof.
  split; [reflexivity|]. split; [reflexivity|].
  intros (v & err' & H). vm_compute in H. discriminate H.
Qed.

(** ** Plane layout *)

Lemma store_Returned field update i v b :
  (i < length (field b))%nat ->
  store field update i v b =
  Returned tt (update (<[i := uint32 v]> (field b)) b).
Proof. intros H. unfold store. apply Nat.ltb_lt in H. now rewrite H. Qed.

Lemma load_Returned field i b v :
  field b !! i = Some v -> load field i b = Returned v b.
Proof. intros H. unfold load. now rewrite H. Qed.

Section LayoutFacts.

Variable NDEBUG : bool.
Variable numPlanes : drv_format_t -> nat.
Variable strideForPlane : drv_format_t -> Z -> nat -> Z.
Variable sizeForPlane : drv_format_t -> Z -> Z -> nat -> Z.
Variable format : drv_format_t.
Variable width height : Z.

Local Abbreviation stride_of := (plane_stride strideForPlane format width).
Local Abbreviation size_of :=
  (plane_size strideForPlane sizeForPlane format width height).
Local Abbreviation bytes :=
  (planes_bytes strideForPlane sizeForPlane format width height).
Local Abbreviation planes_loop :=
  (bo_from_format_planes strideForPlane sizeForPlane format width height).
Local Abbreviation laid_out :=
  (plane_laid_out strideForPlane sizeForPlane format width height).

Lemma bytes_S k : bytes (S k) = bytes k + size_of k.
Proof. reflexivity. Qed.

Lemma size_of_range k : 0 <= size_of k <= UINT32_MAX.
Proof. apply uint32_range. Qed.

Lemma bytes_mono i j : (i <= j)%nat -> 0 <= bytes i <= bytes j.
Proof.
  intros Hij. split.
  - clear Hij. induction i as [|i IH]; [reflexivity|].
    rewrite bytes_S. pose proof (size_of_range i). lia.
  - induction Hij as [|j Hij IH]; [lia|].
    rewrite bytes_S. pose proof (size_of_range j). lia.
Qed.

Lemma planes_loop_step count p offset b :
  (p < length (strides b))%nat ->
  (p < length (sizes b))%nat ->
  (p < length (offsets b))%nat ->
  planes_loop (S count) p offset b =
  planes_loop count (S p) (uint32 (offset + size_of p)) (laid_out p offset b).
Proof.
  intros Hst Hsz Hof.
  cbn [bo_from_format_planes].
  set (b1 := set_strides (<[p := stride_of p]> (strides b)) b).
  set (b2 := set_sizes (<[p := size_of p]> (sizes b1)) b1).
  set (b3 := set_offsets (<[p := uint32 offset]> (offsets b2)) b2).
  rewrite (bind_Returned _ _ b tt b1) by (apply store_Returned; exact Hst).
  rewrite (bind_Returned _ _ b1 (stride_of p) b1)
    by (apply load_Returned; apply list_lookup_insert_eq; exact Hst).
  rewrite (bind_Returned _ _ b1 tt b2) by (apply store_Returned; exact Hsz).
  rewrite (bind_Returned _ _ b2 tt b3) by (apply store_Returned; exact Hof).
  rewrite (bind_Returned _ _ b3 (size_of p) b3)
    by (apply load_Returned; apply list_lookup_insert_eq; exact Hsz).
  reflexivity.
Qed.

(** The loop invariant: the planes from [p] on receive their stride, their
    size and the running offset; everything else is left as it was. *)
Lemma planes_loop_spec count : forall p offset b,
  (p + count <= length (strides b))%nat ->
  (p + count <= length (sizes b))%nat ->
  (p + count <= length (offsets b))%nat ->
  exists r b',
    planes_loop count p offset b = Returned r b' /\
    num_planes b' = num_planes b /\
    handles b' = handles b /\
    total_size b' = total_size b /\
    length (strides b') = length (strides b) /\
    length (sizes b') = length (sizes b) /\
    length (offsets b') = length (offsets b) /\
    (forall j, (p <= j < p + count)%nat ->
       strides b' !! j = Some (stride_of j) /\
       sizes b' !! j = Some (size_of j) /\
       offsets b' !! j = Some (uint32 (offset + bytes j - bytes p))) /\
    (forall j, (j < p \/ p + count <= j)%nat ->
       strides b' !! j = strides b !! j /\
       sizes b' !! j = sizes b !! j /\
       offsets b' !! j = offsets b !! j).
Proof.
  induction count as [|count IH]; intros p offset b Hst Hsz Hof.
  - exists offset, b. split_and!; try reflexivity; intros j Hj; (lia || done).
  - rewrite planes_loop_step by lia.
    destruct (IH (S p) (uint32 (offset + size_of p)) (laid_out p offset b))
      as (r & b' & Hrun & Hn & Hh & Ht & Lst & Lsz & Lof & Hin & Hout);
      cbn [plane_laid_out strides sizes offsets]; rewrite ?length_insert; try lia.
    exists r, b'. split; [exact Hrun|].
    cbn [plane_laid_out strides sizes offsets num_planes handles total_size] in *.
    rewrite !length_insert in *.
    split_and!; try assumption.
    + intros j Hj. destruct (decide (j = p)) as [->|Hne].
      * destruct (Hout p ltac:(lia)) as (-> & -> & ->).
        rewrite !list_lookup_insert_eq by lia.
        split_and!; try reflexivity. do 2 f_equal. lia.
      * destruct (Hin j ltac:(lia)) as (-> & -> & ->).
        split_and!; try reflexivity.
        f_equal.
        replace (uint32 (offset + size_of p) + bytes j - bytes (S p))
          with (uint32 (offset + size_of p) + (bytes j - bytes (S p))) by lia.
        unfold uint32. rewrite wrap_add_l.
        f_equal. rewrite bytes_S. lia.
    + intros j Hj. destruct (Hout j ltac:(lia)) as (-> & -> & ->).
      rewrite !list_lookup_insert_ne by lia. done.
Qed.

(** The whole call on a well-formed buffer object: the loop runs to its end
    and the total is the 32-bit sum of the last plane's offset and size. *)
Lemma drv_bo_from_format_runs b :
  (1 <= numPlanes format <= DRV_MAX_PLANES)%nat ->
  bo_arrays b ->
  (1 <= num_planes b <= DRV_MAX_PLANES)%nat ->
  exists r b1 o s,
    planes_loop (numPlanes format) 0 0 b = Returned r b1 /\
    offsets b1 !! (num_planes b - 1)%nat = Some o /\
    sizes b1 !! (num_planes b - 1)%nat = Some s /\
    drv_bo_from_format NDEBUG numPlanes strideForPlane sizeForPlane
      width height format b
    = Returned 0 (set_total_size (uint32 (o + s)) b1).
Proof.
  intros Hn (Hh & Ho & Hs & Hst) Hb.
  destruct (planes_loop_spec (numPlanes format) 0 0 b)
    as (r & b1 & Hrun & Hnp & _ & _ & _ & Lsz & Lof & _ & _); try lia.
  destruct (lookup_lt_is_Some_2 (offsets b1) (num_planes b - 1)) as [o Hol];
    [lia|].
  destruct (lookup_lt_is_Some_2 (sizes b1) (num_planes b - 1)) as [s Hsl];
    [lia|].
  exists r, b1, o, s. split_and!; try assumption.
  unfold drv_bo_from_format.
  rewrite (bind_Returned _ _ b tt b).
  2:{ apply assert_passes. destruct (numPlanes format); [lia|].
      apply orb_true_r. }
  rewrite (bind_Returned _ _ b r b1) by exact Hrun.
  rewrite (bind_Returned _ _ b1 b1 b1) by reflexivity.
  rewrite (bind_Returned _ _ b1 (num_planes b - 1)%nat b1).
  2:{ rewrite Hnp. destruct (num_planes b) as [|k]; [lia|].
      cbn. now rewrite Nat.sub_0_r. }
  rewrite (bind_Returned _ _ b1 o b1) by (apply load_Returned; exact Hol).
  rewrite (bind_Returned _ _ b1 s b1) by (apply load_Returned; exact Hsl).
  reflexivity.
Qed.

(** C1, as the code has it.  For a format of one to [DRV_MAX_PLANES] planes
    and a buffer object of one to [DRV_MAX_PLANES] planes, any width and
    height, [drv_bo_from_format] returns 0 and leaves every plane [i] of the
    format with the stride and size that FormatInfo gives, [offset[0] = 0],
    [offset[i] = (offset[i-1] + size[i-1]) mod 2^32] for [i > 0], and
    [total_size = (offset[last] + size[last]) mod 2^32] for the last plane of
    the buffer object.  When the sizes of the format's planes add up to at
    most [UINT32_MAX] the offsets are the plain sums, and so is the total
    when the buffer object has the format's plane count. *)
Theorem drv_bo_from_format_packs_planes b :
  (1 <= numPlanes format <= DRV_MAX_PLANES)%nat ->
  bo_arrays b ->
  (1 <= num_planes b <= DRV_MAX_PLANES)%nat ->
  exists b',
    drv_bo_from_format NDEBUG numPlanes strideForPlane sizeForPlane
      width height format b = Returned 0 b' /\
    num_planes b' = num_planes b /\
    (forall i, (i < numPlanes format)%nat ->
       strides b' !! i = Some (stride_of i) /\
       sizes b' !! i = Some (size_of i)) /\
    offsets b' !! 0%nat = Some 0 /\
    (forall i, (0 < i < numPlanes format)%nat ->
       exists o s,
         offsets b' !! (i - 1)%nat = Some o /\
         sizes b' !! (i - 1)%nat = Some s /\
         offsets b' !! i = Some (uint32 (o + s)) /\
         (bytes (numPlanes format) <= UINT32_MAX ->
          offsets b' !! i = Some (o + s))) /\
    (exists o s,
       offsets b' !! (num_planes b - 1)%nat = Some o /\
       sizes b' !! (num_planes b - 1)%nat = Some s /\
       total_size b' = uint32 (o + s) /\
       (num_planes b = numPlanes format ->
        bytes (numPlanes format) <= UINT32_MAX ->
        total_size b' = o + s)).
Proof.
  intros Hn Harr Hb.
  destruct (drv_bo_from_format_runs b Hn Harr Hb)
    as (r & b1 & o & s & Hrun & Hol & Hsl & Hcall).
  destruct Harr as (Hh & Ho & Hs & Hst).
  destruct (planes_loop_spec (numPlanes format) 0 0 b)
    as (r' & b1' & Hrun' & Hnp & _ & _ & _ & _ & _ & Hin & _); try lia.
  rewrite Hrun in Hrun'. injection Hrun' as <- <-.
  assert (Hoff : forall i, (i < numPlanes format)%nat ->
                   offsets b1 !! i = Some (uint32 (bytes i))).
  { intros i Hi. destruct (Hin i ltac:(lia)) as (_ & _ & ->).
    do 2 f_equal. cbn. lia. }
  exists (set_total_size (uint32 (o + s)) b1).
  cbn [set_total_size num_planes strides sizes offsets total_size].
  split_and!; try assumption.
  - intros i Hi. destruct (Hin i ltac:(lia)) as (-> & -> & _). done.
  - rewrite Hoff by lia. reflexivity.
  - intros i Hi. destruct i as [|k]; [lia|].
    replace (S k - 1)%nat with k by lia.
    exists (uint32 (bytes k)), (size_of k).
    destruct (Hin k ltac:(lia)) as (_ & -> & _).
    rewrite !Hoff by lia. rewrite bytes_S.
    split_and!; try reflexivity.
    + f_equal. unfold uint32. now rewrite wrap_add_l.
    + intros Hfit. f_equal.
      pose proof (bytes_mono k (numPlanes format) ltac:(lia)).
      pose proof (bytes_mono (S k) (numPlanes format) ltac:(lia)) as HS.
      rewrite bytes_S in HS.
      rewrite (uint32_small (bytes k)) by lia.
      apply uint32_small. lia.
  - exists o, s. split_and!; try assumption; try reflexivity.
    intros Heq Hfit.
    destruct (Hin (num_planes b - 1)%nat ltac:(lia)) as (_ & Hsz & _).
    rewrite Hoff in Hol by lia.
    rewrite Hsl in Hsz. injection Hsz as ->. injection Hol as <-.
    pose proof (bytes_mono (num_planes b - 1) (numPlanes format) ltac:(lia)).
    assert (HS : bytes (numPlanes format)
                 = bytes (num_planes b - 1) + size_of (num_planes b - 1)%nat).
    { rewrite <- bytes_S. f_equal. lia. }
    pose proof (size_of_range (num_planes b - 1)).
    rewrite (uint32_small (bytes (num_planes b - 1))) by lia.
    apply uint32_small. lia.
Qed.

(** C7, as the code has it.  [drv_bo_from_format] has no error result:
    whenever it returns, it returns 0.  A format for which FormatInfo
    reports no plane (an unrecognized code) fails the assertion on the plane
    count when assertions are active: the call aborts, before anything is
    written to the buffer object. *)
Theorem drv_bo_from_format_no_error_result b :
  (forall r b',
     drv_bo_from_format NDEBUG numPlanes strideForPlane sizeForPlane
       width height format b = Returned r b' -> r = 0) /\
  (NDEBUG = false -> numPlanes format = 0%nat ->
   drv_bo_from_format NDEBUG numPlanes strideForPlane sizeForPlane
     width height format b = Aborted b).
Proof.
  split.
  - intros r b' H. unfold drv_bo_from_format in H.
    repeat (apply bind_inv in H as (? & ? & _ & H)).
    unfold pure in H. congruence.
  - intros -> Hzero. unfold drv_bo_from_format. rewrite Hzero.
    reflexivity.
Qed.

End LayoutFacts.

(** C1 on the reference table: the semi-planar format at 4 x 4. *)
Lemma drv_bo_from_format_packs_planes_witness :
  let numPlanes := FormatInfo.drv_num_planes_from_format in
  let b := bo_zero 2 in
  (1 <= numPlanes DRV_FORMAT_NV12 <= DRV_MAX_PLANES)%nat /\
  bo_arrays b /\
  (1 <= num_planes b <= DRV_MAX_PLANES)%nat /\
  exists b',
    drv_bo_from_format false numPlanes FormatInfo.drv_stride_from_format
      FormatInfo.drv_size_from_format 4 4 DRV_FORMAT_NV12 b = Returned 0 b' /\
    num_planes b' = num_planes b /\
    (forall i, (i < numPlanes DRV_FORMAT_NV12)%nat ->
       strides b' !! i
       = Some (plane_stride FormatInfo.drv_stride_from_format DRV_FORMAT_NV12 4 i) /\
       sizes b' !! i
       = Some (plane_size FormatInfo.drv_stride_from_format
                 FormatInfo.drv_size_from_format DRV_FORMAT_NV12 4 4 i)) /\
    offsets b' !! 0%nat = Some 0 /\
    (forall i, (0 < i < numPlanes DRV_FORMAT_NV12)%nat ->
       exists o s,
         offsets b' !! (i - 1)%nat = Some o /\
         sizes b' !! (i - 1)%nat = Some s /\
         offsets b' !! i = Some (uint32 (o + s)) /\
         (planes_bytes FormatInfo.drv_stride_from_format
            FormatInfo.drv_size_from_format DRV_FORMAT_NV12 4 4
            (numPlanes DRV_FORMAT_NV12) <= UINT32_MAX ->
          offsets b' !! i = Some (o + s))) /\
    (exists o s,
       offsets b' !! (num_planes b - 1)%nat = Some o /\
       sizes b' !! (num_planes b - 1)%nat = Some s /\
       total_size b' = uint32 (o + s) /\
       (num_planes b = numPlanes DRV_FORMAT_NV12 ->
        planes_bytes FormatInfo.drv_stride_from_format
          FormatInfo.drv_size_from_format DRV_FORMAT_NV12 4 4
          (numPlanes DRV_FORMAT_NV12) <= UINT32_MAX ->
        total_size b' = o + s)).
Proof.
  intros numPlanes b.
  assert (Hn : (1 <= numPlanes DRV_FORMAT_NV12 <= DRV_MAX_PLANES)%nat)
    by (cbn; unfold DRV_MAX_PLANES; lia).
  assert (Harr : bo_arrays b) by (repeat split).
  assert (Hb : (1 <= num_planes b <= DRV_MAX_PLANES)%nat)
    by (cbn; unfold DRV_MAX_PLANES; lia).
  split; [exact Hn|]. split; [exact Harr|]. split; [exact Hb|].
  exact (drv_bo_from_format_packs_planes false numPlanes
           FormatInfo.drv_stride_from_format FormatInfo.drv_size_from_format
           DRV_FORMAT_NV12 4 4 b Hn Harr Hb).
Defined.

(** The two layouts that the design document works out. *)
Example drv_bo_from_format_NV12_4x4 :
  drv_bo_from_format false FormatInfo.drv_num_planes_from_format
    FormatInfo.drv_stride_from_format FormatInfo.drv_size_from_format
    4 4 DRV_FORMAT_NV12 (bo_zero 2)
  = Returned 0 (mk_bo 2 [0; 0; 0; 0] [0; 16; 0; 0] [16; 8; 0; 0] [4; 4; 0; 0] 24).
Proof. reflexivity. Qed.

Example drv_bo_from_format_ARGB8888_2x2 :
  drv_bo_from_format false FormatInfo.drv_num_planes_from_format
    FormatInfo.drv_stride_from_format FormatInfo.drv_size_from_format
    2 2 DRV_FORMAT_ARGB8888 (bo_zero 1)
  = Returned 0 (mk_bo 1 [0; 0; 0; 0] [0; 0; 0; 0] [16; 0; 0; 0] [8; 0; 0; 0] 16).
Proof. reflexivity. Qed.

(** C1 as stated fails.  For the three-plane format at 65536 x 60000 the
    first two planes take 3932160000 + 983040000 bytes, more than a
    [uint32_t] holds, and the third plane's offset is stored as 620232704.
    For the semi-planar format at 65536 x 43691 the two planes take
    2863333376 + 1431699456 bytes and the total is stored as 65536. *)
Lemma drv_bo_from_format_offset_wraps :
  (exists b',
     drv_bo_from_format false FormatInfo.drv_num_planes_from_format
       FormatInfo.drv_stride_from_format FormatInfo.drv_size_from_format
       65536 60000 DRV_FORMAT_YVU420 (bo_zero 3) = Returned 0 b' /\
     offsets b' !! 1%nat = Some 3932160000 /\
     sizes b' !! 1%nat = Some 983040000 /\
     offsets b' !! 2%nat = Some 620232704 /\
     620232704 <> 3932160000 + 983040000) /\
  (exists b',
     drv_bo_from_format false FormatInfo.drv_num_planes_from_format
       FormatInfo.drv_stride_from_format FormatInfo.drv_size_from_format
       65536 43691 DRV_FORMAT_NV12 (bo_zero 2) = Returned 0 b' /\
     offsets b' !! 1%nat = Some 2863333376 /\
     sizes b' !! 1%nat = Some 1431699456 /\
     total_size b' = 65536 /\
     65536 <> 2863333376 + 1431699456).
Proof.
  split.
  - eexists. split; [vm_compute; reflexivity|].
    split_and!; try reflexivity. lia.
  - eexists. split; [vm_compute; reflexivity|].
    split_and!; try reflexivity. lia.
Qed.

(** C7 on the reference table: an unrecognized code, assertions active. *)
Lemma drv_bo_from_format_no_error_result_witness :
  let run := drv_bo_from_format false FormatInfo.drv_num_planes_from_format
               FormatInfo.drv_stride_from_format FormatInfo.drv_size_from_format
               4 4 (DRV_FORMAT_other 0) in
  false = false /\
  FormatInfo.drv_num_planes_from_format (DRV_FORMAT_other 0) = 0%nat /\
  (forall r b', run (bo_zero 1) = Returned r b' -> r = 0) /\
  run (bo_zero 1) = Aborted (bo_zero 1).
Proof.
  intros run.
  pose proof (drv_bo_from_format_no_error_result false
                FormatInfo.drv_num_planes_from_format
                FormatInfo.drv_stride_from_format
                FormatInfo.drv_size_from_format
                (DRV_FORMAT_other 0) 4 4 (bo_zero 1)) as [Hret Habort].
  split; [reflexivity|]. split; [reflexivity|]. split; [exact Hret|].
  apply Habort; reflexivity.
Defined.

(** C7 as stated fails: on an unrecognized code the call yields no error
    result; with assertions active it aborts, with assertions compiled out
    it returns 0. *)
Lemma drv_bo_from_format_unknown_no_InvalidFormat :
  let run NDEBUG :=
    drv_bo_from_format NDEBUG FormatInfo.drv_num_planes_from_format
      FormatInfo.drv_stride_from_format FormatInfo.drv_size_from_format
      4 4 (DRV_FORMAT_other 0) (bo_zero 1) in
  recognized (DRV_FORMAT_other 0) = false /\
  run false = Aborted (bo_zero 1) /\
  run true = Returned 0 (bo_zero 1) /\
  ~ (exists NDEBUG e b', e <> 0 /\ run NDEBUG = Returned e b').
Proof.
  intros run. split_and!; try reflexivity.
  intros (NDEBUG & e & b' & He & H).
  destruct NDEBUG; vm_compute in H; congruence.
Qed.

(** ** First occurrences *)

Lemma first_occurrences_elem_of l : forall seen h,
  h ∈ first_occurrences seen l <-> h ∈ l /\ h ∉ seen.
Proof.
  induction l as [|x l IH]; intros seen h; cbn [first_occurrences].
  - rewrite elem_of_nil. tauto.
  - case_bool_decide as Hx.
    + rewrite IH, elem_of_cons, elem_of_app, list_elem_of_singleton.
      split.
      * intros [Hl Hn]. split; [now right|]. intros Hs. apply Hn. now left.
      * intros [[->|Hl] Hn]; [contradiction|]. split; [exact Hl|].
        intros [Hs| ->]; contradiction.
    + rewrite elem_of_cons, IH, elem_of_cons, elem_of_app, list_elem_of_singleton.
      split.
      * intros [->|[Hl Hn]]; [split; [now left|exact Hx]|].
        split; [now right|]. intros Hs. apply Hn. now left.
      * intros [[->|Hl] Hn]; [now left|].
        destruct (decide (h = x)) as [->|Hne]; [now left|].
        right. split; [exact Hl|]. intros [Hs|Heq]; contradiction.
Qed.

Lemma first_occurrences_NoDup l : forall seen, NoDup (first_occurrences seen l).
Proof.
  induction l as [|x l IH]; intros seen; cbn [first_occurrences].
  - constructor.
  - case_bool_decide as Hx; [apply IH|].
    constructor; [|apply IH].
    rewrite first_occurrences_elem_of, elem_of_app, list_elem_of_singleton.
    intros [_ Hn]. apply Hn. now right.
Qed.

(** ** Releasing the handles of a buffer object *)

Section DestroyFacts.

Variable kernel : Type.
Variable drmIoctl : ioctl_request -> kernel -> Z * Z * kernel.

Local Abbreviation destroy_plane := (gem_bo_destroy_plane kernel drmIoctl).
Local Abbreviation destroy_planes := (gem_bo_destroy_planes kernel drmIoctl).

(** The inner loop leaves [i] at [plane] exactly when no plane before
    [plane] carries its handle. *)
Lemma earlier_plane_spec b plane h count : forall i,
  handles b !! plane = Some h ->
  (i + count = plane)%nat ->
  exists j,
    earlier_plane b plane count i = Some j /\
    (j =? plane)%nat = negb (bool_decide (h ∈ take count (drop i (handles b)))).
Proof.
  induction count as [|count IH]; intros i Hh Hi; cbn [earlier_plane].
  - exists i. split; [reflexivity|].
    rewrite take_0, bool_decide_eq_false_2 by apply not_elem_of_nil.
    apply Nat.eqb_eq. lia.
  - assert (Hlt : (i < length (handles b))%nat).
    { apply lookup_lt_Some in Hh. lia. }
    destruct (lookup_lt_is_Some_2 _ _ Hlt) as [hi Hhi].
    rewrite Hhi, Hh, (drop_S _ _ _ Hhi). cbn [take].
    destruct (Z.eqb_spec hi h) as [->|Hne].
    + exists i. split; [reflexivity|].
      rewrite bool_decide_eq_true_2 by (apply elem_of_cons; now left).
      apply Nat.eqb_neq. lia.
    + destruct (IH (S i) Hh ltac:(lia)) as (j & -> & Hj).
      exists j. split; [reflexivity|]. rewrite Hj. f_equal.
      apply bool_decide_ext. rewrite elem_of_cons.
      split; [now right|]. intros [Heq|Hin]; [congruence|exact Hin].
Qed.

(** One turn of the outer loop. *)
Lemma destroy_plane_skips b plane h error d :
  handles b !! plane = Some h ->
  h ∈ take plane (handles b) ->
  destroy_plane b plane error d = Returned error d.
Proof.
  intros Hh Hin. unfold gem_bo_destroy_plane.
  destruct (earlier_plane_spec b plane h plane 0 Hh eq_refl) as (j & Hj & Hjp).
  rewrite drop_0, bool_decide_eq_true_2 in Hjp by exact Hin.
  rewrite (bind_Returned _ _ d j d) by (now rewrite Hj).
  now rewrite Hjp.
Qed.

Lemma destroy_plane_closes b plane h error d :
  handles b !! plane = Some h ->
  h ∉ take plane (handles b) ->
  exists ret k,
    (drmIoctl (DRM_IOCTL_GEM_CLOSE h) (dev_kernel d)).1.1 = ret /\
    destroy_plane b plane error d
    = Returned (if ret =? 0 then error else ret)
        (mk_device k
           (dev_ioctls d ++ [(DRM_IOCTL_GEM_CLOSE h, ret)])
           (dev_stderr d ++ close_failures [(DRM_IOCTL_GEM_CLOSE h, ret)])).
Proof.
  intros Hh Hnin. unfold gem_bo_destroy_plane.
  destruct (earlier_plane_spec b plane h plane 0 Hh eq_refl) as (j & Hj & Hjp).
  rewrite drop_0, bool_decide_eq_false_2 in Hjp by exact Hnin.
  rewrite (bind_Returned _ _ d j d) by (now rewrite Hj).
  rewrite Hjp. cbn [negb].
  rewrite (bind_Returned _ _ d h d) by (now rewrite Hh).
  unfold bind at 1, issue.
  destruct (drmIoctl (DRM_IOCTL_GEM_CLOSE h) (dev_kernel d)) as [[ret out] k].
  exists ret, k. split; [reflexivity|].
  unfold close_failures. cbn.
  destruct (ret =? 0); cbn.
  - unfold pure. now rewrite app_nil_r.
  - reflexivity.
Qed.

(** The outer loop: the requests are the first occurrences of the handles,
    whatever the kernel answers; [error] ends as the return value of the
    last request that failed. *)
Lemma destroy_planes_spec b count : forall plane error d,
  (plane + count <= length (handles b))%nat ->
  exists answered d',
    destroy_planes b count plane error d
    = Returned (default error (last (errors answered.*2))) d' /\
    dev_ioctls d' = dev_ioctls d ++ answered /\
    answered.*1 = DRM_IOCTL_GEM_CLOSE <$>
      first_occurrences (take plane (handles b))
        (take count (drop plane (handles b))) /\
    dev_stderr d' = dev_stderr d ++ close_failures answered.
Proof.
  induction count as [|count IH]; intros plane error d Hlen;
    cbn [gem_bo_destroy_planes].
  - exists [], d. rewrite take_0, !app_nil_r. done.
  - destruct (lookup_lt_is_Some_2 (handles b) plane ltac:(lia)) as [h Hh].
    rewrite (drop_S _ _ _ Hh). cbn [take first_occurrences].
    rewrite <- (take_S_r _ _ _ Hh).
    case_bool_decide as Hseen.
    + rewrite (bind_Returned _ _ d error d)
        by (eapply destroy_plane_skips; eassumption).
      apply IH. lia.
    + destruct (destroy_plane_closes b plane h error d Hh Hseen)
        as (ret & k & _ & Hstep).
      rewrite (bind_Returned _ _ _ _ _ Hstep).
      destruct (IH (S plane) (if ret =? 0 then error else ret)
                  (mk_device k
                     (dev_ioctls d ++ [(DRM_IOCTL_GEM_CLOSE h, ret)])
                     (dev_stderr d ++ close_failures [(DRM_IOCTL_GEM_CLOSE h, ret)])))
        as (answered & d' & Hrun & Hio & Hreq & Herr); [lia|].
      exists ((DRM_IOCTL_GEM_CLOSE h, ret) :: answered), d'.
      cbn [dev_ioctls dev_stderr] in Hio, Herr.
      rewrite Hrun, Hio, Herr, <- !app_assoc. cbn [fmap list_fmap app fst snd].
      split_and!.
      * f_equal. unfold errors.
        destruct (Z.eqb_spec ret 0) as [->|Hne].
        -- rewrite filter_cons_False by (intros Hn; now apply Hn).
           reflexivity.
        -- rewrite filter_cons_True by exact Hne. rewrite last_cons.
           now destruct (last _).
      * reflexivity.
      * f_equal. exact Hreq.
      * f_equal. unfold close_failures. cbn.
        now destruct (ret =? 0).
Qed.

Lemma drv_gem_bo_destroy_spec b d :
  (num_planes b <= length (handles b))%nat ->
  exists answered d',
    drv_gem_bo_destroy kernel drmIoctl b d
    = Returned (last_error answered.*2) d' /\
    dev_ioctls d' = dev_ioctls d ++ answered /\
    answered.*1
    = DRM_IOCTL_GEM_CLOSE <$> first_occurrences [] (plane_handles b) /\
    dev_stderr d' = dev_stderr d ++ close_failures answered.
Proof.
  intros Hlen. unfold drv_gem_bo_destroy, plane_handles, last_error.
  destruct (destroy_planes_spec b (num_planes b) 0 0 d Hlen)
    as (answered & d' & Hrun & Hio & Hreq & Herr).
  rewrite take_0, drop_0 in Hreq. eauto 10.
Qed.

(** C2. For a buffer object whose planes lie inside its handle array,
    [drv_gem_bo_destroy] issues one [GEM_CLOSE] request for each distinct
    handle of its planes, in the order of first occurrence and never twice;
    for the planes [[h1, h1, h2]] these are the two requests for [h1] and
    [h2].  A turn of the loop issues no request exactly when an earlier plane
    carries the same handle. *)
Theorem drv_gem_bo_destroy_releases_each_handle_once b d :
  (num_planes b <= length (handles b))%nat ->
  exists r d' answered,
    drv_gem_bo_destroy kernel drmIoctl b d = Returned r d' /\
    dev_ioctls d' = dev_ioctls d ++ answered /\
    answered.*1
    = DRM_IOCTL_GEM_CLOSE <$> first_occurrences [] (plane_handles b) /\
    NoDup answered.*1 /\
    (forall h, DRM_IOCTL_GEM_CLOSE h ∈ answered.*1 <-> h ∈ plane_handles b) /\
    (forall h1 h2, h1 <> h2 -> plane_handles b = [h1; h1; h2] ->
       answered.*1 = [DRM_IOCTL_GEM_CLOSE h1; DRM_IOCTL_GEM_CLOSE h2]) /\
    (forall plane h error d0,
       handles b !! plane = Some h ->
       ((exists i, handles b !! i = Some h /\ (i < plane)%nat) ->
        destroy_plane b plane error d0 = Returned error d0) /\
       (~ (exists i, handles b !! i = Some h /\ (i < plane)%nat) ->
        exists e d1 ret,
          destroy_plane b plane error d0 = Returned e d1 /\
          dev_ioctls d1 = dev_ioctls d0 ++ [(DRM_IOCTL_GEM_CLOSE h, ret)])).
Proof.
  intros Hlen.
  destruct (drv_gem_bo_destroy_spec b d Hlen)
    as (answered & d' & Hrun & Hio & Hreq & _).
  assert (Hinj : Inj (=) (=) DRM_IOCTL_GEM_CLOSE) by (intros x y; congruence).
  exists (last_error answered.*2), d', answered.
  split_and!; try assumption.
  - rewrite Hreq. apply NoDup_fmap_2; [exact Hinj|].
    apply first_occurrences_NoDup.
  - intros h. rewrite Hreq, (list_elem_of_fmap_inj _), first_occurrences_elem_of.
    pose proof (not_elem_of_nil h). tauto.
  - intros h1 h2 Hne Hplanes. rewrite Hreq, Hplanes. cbn.
    rewrite bool_decide_eq_false_2 by apply not_elem_of_nil.
    rewrite bool_decide_eq_true_2 by (apply list_elem_of_singleton; reflexivity).
    rewrite bool_decide_eq_false_2; [reflexivity|].
    rewrite !elem_of_cons, elem_of_nil. intros [?|[?|[]]]; congruence.
  - intros plane h error d0 Hh. split.
    + intros Hearlier. apply (destroy_plane_skips b plane h); [exact Hh|].
      now apply elem_of_take.
    + intros Hnone.
      destruct (destroy_plane_closes b plane h error d0 Hh) as (ret & k & _ & ->).
      { now rewrite elem_of_take. }
      eauto.
Qed.





End DestroyFacts.

(** C2 on planes [[5, 5, 9]]: two requests, for 5 and for 9. *)
Lemma drv_gem_bo_destroy_releases_each_handle_once_witness :
  (num_planes bo_shared <= length (handles bo_shared))%nat /\
  exists r d' answered,
    drv_gem_bo_destroy unit (fake_ioctl []) bo_shared fake_device
    = Returned r d' /\
    dev_ioctls d' = dev_ioctls fake_device ++ answered /\
    NoDup answered.*1 /\
    (forall h, DRM_IOCTL_GEM_CLOSE h ∈ answered.*1 <-> h ∈ plane_handles bo_shared) /\
    answered.*1 = [DRM_IOCTL_GEM_CLOSE 5; DRM_IOCTL_GEM_CLOSE 9].
Proof.
  assert (Hlen : (num_planes bo_shared <= length (handles bo_shared))%nat)
    by (cbn; lia).
  split; [exact Hlen|].
  destruct (drv_gem_bo_destroy_releases_each_handle_once unit (fake_ioctl [])
              bo_shared fake_device Hlen)
    as (r & d' & answered & Hrun & Hio & _ & Hnd & Hmem & Hthree & _).
  exists r, d', answered. split_and!; try assumption.
  apply Hthree; [lia|reflexivity].
Defined.


(** The same run, computed. *)
Example drv_gem_bo_destroy_refused_twice :
  drv_gem_bo_destroy unit (refusing_ioctl [5; 9]) bo_shared fake_device
  = Returned (-1)
      (mk_device tt
         [(DRM_IOCTL_GEM_CLOSE 5, -1); (DRM_IOCTL_GEM_CLOSE 9, -1)]
         [GEM_CLOSE_failed 5 (-1); GEM_CLOSE_failed 9 (-1)]).
Proof. vm_compute. reflexivity. Qed.

(** ** Mapping a plane *)

Lemma sum_list_nonneg l : Forall (fun s => 0 <= s) l -> 0 <= sum_list l.
Proof.
  induction 1 as [|s l Hs _ IH]; cbn; [reflexivity|]. unfold sum_list in IH. lia.
Qed.

Lemma shared_sizes_Forall (P : Z -> Prop) hs ss h :
  Forall P ss -> Forall P (shared_sizes hs ss h).
Proof.
  intros Hall. unfold shared_sizes. apply Forall_forall. intros s Hs.
  apply list_elem_of_fmap in Hs as ([h' s'] & -> & Hin).
  apply list_elem_of_filter in Hin as [_ Hin].
  apply elem_of_zip_r in Hin. rewrite Forall_forall in Hall. now apply Hall.
Qed.

Lemma shared_bytes_nonneg b h :
  Forall (fun s => 0 <= s) (sizes b) -> 0 <= shared_bytes b h.
Proof. intros H. apply sum_list_nonneg, shared_sizes_Forall, H. Qed.

Section MapFacts.

Variable kernel : Type.
Variable drmIoctl : ioctl_request -> kernel -> Z * Z * kernel.
Variable mmap : Z -> Z -> kernel -> Z * kernel.
Variable size_bits : Z.

Local Abbreviation size_t := (wrap size_bits).

(** The accumulation loop adds, in [size_t] arithmetic, the sizes of the
    planes it visits that carry the handle of [plane]. *)
Lemma dumb_bo_map_length_spec b plane h count : forall i len,
  handles b !! plane = Some h ->
  (i + count <= length (handles b))%nat ->
  (i + count <= length (sizes b))%nat ->
  0 <= len < 2 ^ size_bits ->
  dumb_bo_map_length size_bits b plane count i len
  = Some (size_t (len + sum_list
            (shared_sizes (take count (drop i (handles b)))
               (drop i (sizes b)) h))).
Proof.
  induction count as [|count IH]; intros i len Hh Lh Ls Hlen;
    cbn [dumb_bo_map_length].
  - rewrite take_0. cbn. now rewrite Z.add_0_r, wrap_small.
  - destruct (lookup_lt_is_Some_2 (handles b) i ltac:(lia)) as [hi Hhi].
    destruct (lookup_lt_is_Some_2 (sizes b) i ltac:(lia)) as [s Hs].
    rewrite Hhi, Hh, Hs, (drop_S _ _ _ Hhi), (drop_S _ _ _ Hs).
    cbn [take]. unfold shared_sizes. cbn [zip_with].
    destruct (Z.eqb_spec hi h) as [->|Hne].
    + rewrite filter_cons_True by reflexivity.
      rewrite IH; try assumption; try lia.
      * f_equal. cbn [fmap list_fmap snd sum_list foldr].
        rewrite wrap_add_l. f_equal. unfold sum_list, shared_sizes. lia.
      * unfold wrap. apply Z.mod_pos_bound. lia.
    + rewrite filter_cons_False by (cbn; congruence).
      apply IH; try assumption; lia.
Qed.

(** The whole call, on both branches of the describe request. *)
Lemma drv_dumb_bo_map_spec b data plane h d :
  handles b !! plane = Some h ->
  (num_planes b <= length (handles b))%nat ->
  (num_planes b <= length (sizes b))%nat ->
  0 <= map_info_length data < 2 ^ size_bits ->
  exists ret offset k,
    drmIoctl (DRM_IOCTL_MODE_MAP_DUMB h) (dev_kernel d) = (ret, offset, k) /\
    let length' := size_t (map_info_length data + shared_bytes b h) in
    drv_dumb_bo_map kernel drmIoctl mmap size_bits b data plane d
    = if ret =? 0 then
        Returned ((mmap length' offset k).1, mk_map_info length')
          (mk_device (mmap length' offset k).2
             (dev_ioctls d ++ [(DRM_IOCTL_MODE_MAP_DUMB h, ret)])
             (dev_stderr d))
      else
        Returned (MAP_FAILED, data)
          (mk_device k
             (dev_ioctls d ++ [(DRM_IOCTL_MODE_MAP_DUMB h, ret)])
             (dev_stderr d ++ [MODE_MAP_DUMB_failed])).
Proof.
  intros Hh Lh Ls Hlen.
  destruct (drmIoctl (DRM_IOCTL_MODE_MAP_DUMB h) (dev_kernel d))
    as [[ret offset] k] eqn:Hio.
  exists ret, offset, k. split; [reflexivity|]. intros length'.
  unfold drv_dumb_bo_map.
  rewrite (bind_Returned _ _ d h d) by (now rewrite Hh).
  unfold bind at 1, issue. rewrite Hio. cbn [fst snd].
  destruct (ret =? 0); cbn [negb].
  - pose proof (dumb_bo_map_length_spec b plane h (num_planes b) 0
                  (map_info_length data) Hh Lh Ls Hlen) as Hloop.
    rewrite !drop_0 in Hloop. fold (plane_handles b) in Hloop.
    fold (shared_bytes b h) in Hloop. fold length' in Hloop.
    rewrite Hloop. unfold bind, defined, pure, call_mmap. cbn [dev_kernel].
    now destruct (mmap length' offset k).
  - reflexivity.
Qed.

(** C10, as the code has it.  When the describe request succeeds,
    [drv_dumb_bo_map] leaves in [data->length] the value it found there plus
    the sizes of the planes that share the handle of [plane], added in
    [size_t] arithmetic and never reset: the plain sum whenever that fits in
    a [size_t].  The result is the sum of the sizes alone only when the
    length it found was 0. *)
Theorem drv_dumb_bo_map_adds_to_length b data plane h d :
  handles b !! plane = Some h ->
  (num_planes b <= length (handles b))%nat ->
  (num_planes b <= length (sizes b))%nat ->
  Forall (fun s => 0 <= s) (sizes b) ->
  0 <= map_info_length data < 2 ^ size_bits ->
  (drmIoctl (DRM_IOCTL_MODE_MAP_DUMB h) (dev_kernel d)).1.1 = 0 ->
  exists addr data' d',
    drv_dumb_bo_map kernel drmIoctl mmap size_bits b data plane d
    = Returned (addr, data') d' /\
    map_info_length data'
    = size_t (map_info_length data + shared_bytes b h) /\
    (map_info_length data + shared_bytes b h < 2 ^ size_bits ->
     map_info_length data' = map_info_length data + shared_bytes b h) /\
    (map_info_length data' = shared_bytes b h -> map_info_length data = 0).
Proof.
  intros Hh Lh Ls Hpos Hlen Hok.
  destruct (drv_dumb_bo_map_spec b data plane h d Hh Lh Ls Hlen)
    as (ret & offset & k & Hio & Hcall).
  rewrite Hio in Hok. cbn in Hok. subst ret. cbn in Hcall.
  pose proof (shared_bytes_nonneg b h Hpos) as Hsum.
  eexists _, _, _. split; [exact Hcall|]. cbn [map_info_length].
  split; [reflexivity|].
  split.
  - intros Hfit. apply wrap_small. split; [|exact Hfit].
    apply Z.add_nonneg_nonneg; [apply Hlen|exact Hsum].
  - apply wrap_add_cancel; assumption.
Qed.

(** C5, as the code has it.  When the describe request succeeds and
    [data->length] is 0 on entry, [drv_dumb_bo_map] sets it to the sum of
    [size[i]] over the planes [i] that share the handle of [plane] (a sum
    that fits in a [size_t]); for two planes on one handle this is the sum
    of both sizes. *)
Theorem drv_dumb_bo_map_length_of_zeroed b data plane h d :
  handles b !! plane = Some h ->
  (num_planes b <= length (handles b))%nat ->
  (num_planes b <= length (sizes b))%nat ->
  Forall (fun s => 0 <= s) (sizes b) ->
  map_info_length data = 0 ->
  shared_bytes b h < 2 ^ size_bits ->
  (drmIoctl (DRM_IOCTL_MODE_MAP_DUMB h) (dev_kernel d)).1.1 = 0 ->
  exists addr d',
    drv_dumb_bo_map kernel drmIoctl mmap size_bits b data plane d
    = Returned (addr, mk_map_info (shared_bytes b h)) d' /\
    (forall s0 s1 rest,
       plane_handles b = [h; h] -> sizes b = s0 :: s1 :: rest ->
       shared_bytes b h = s0 + s1).
Proof.
  intros Hh Lh Ls Hpos Hzero Hfit Hok.
  pose proof (shared_bytes_nonneg b h Hpos) as Hsum.
  destruct (drv_dumb_bo_map_spec b data plane h d Hh Lh Ls ltac:(lia))
    as (ret & offset & k & Hio & Hcall).
  rewrite Hio in Hok. cbn in Hok. subst ret. cbn in Hcall.
  rewrite Hzero, Z.add_0_l, wrap_small in Hcall by lia.
  eexists _, _. split; [exact Hcall|].
  intros s0 s1 rest Hplanes Hsizes.
  unfold shared_bytes, shared_sizes. rewrite Hplanes, Hsizes. cbn [zip_with].
  rewrite !filter_cons_True by reflexivity. cbn. lia.
Qed.

End MapFacts.

(** C10 on planes [[5, 5, 9]] of sizes [[16, 8, 4]], a 64-bit [size_t] and
    5 in [data->length]: mapping plane 1 leaves 5 + 24. *)
Lemma drv_dumb_bo_map_adds_to_length_witness :
  let data := mk_map_info 5 in
  handles bo_shared !! 1%nat = Some 5 /\
  (num_planes bo_shared <= length (handles bo_shared))%nat /\
  (num_planes bo_shared <= length (sizes bo_shared))%nat /\
  Forall (fun s => 0 <= s) (sizes bo_shared) /\
  0 <= map_info_length data < 2 ^ 64 /\
  (fake_ioctl [] (DRM_IOCTL_MODE_MAP_DUMB 5) (dev_kernel fake_device)).1.1 = 0 /\
  exists addr data' d',
    drv_dumb_bo_map unit (fake_ioctl []) fake_mmap 64 bo_shared data 1 fake_device
    = Returned (addr, data') d' /\
    map_info_length data' = wrap 64 (5 + shared_bytes bo_shared 5) /\
    (5 + shared_bytes bo_shared 5 < 2 ^ 64 -> map_info_length data' = 5 + 24) /\
    (map_info_length data' = shared_bytes bo_shared 5 -> map_info_length data = 0).
Proof.
  intros data.
  assert (H1 : handles bo_shared !! 1%nat = Some 5) by reflexivity.
  assert (H2 : (num_planes bo_shared <= length (handles bo_shared))%nat)
    by (cbn; lia).
  assert (H3 : (num_planes bo_shared <= length (sizes bo_shared))%nat)
    by (cbn; lia).
  assert (H4 : Forall (fun s => 0 <= s) (sizes bo_shared))
    by (repeat constructor; lia).
  assert (H5 : 0 <= map_info_length data < 2 ^ 64) by (cbn; lia).
  assert (H6 : (fake_ioctl [] (DRM_IOCTL_MODE_MAP_DUMB 5)
                  (dev_kernel fake_device)).1.1 = 0) by reflexivity.
  repeat (split; [assumption|]).
  destruct (drv_dumb_bo_map_adds_to_length unit (fake_ioctl []) fake_mmap 64
              bo_shared data 1 5 fake_device H1 H2 H3 H4 H5 H6)
    as (addr & data' & d' & Hrun & Hlen & Hexact & Honly).
  exists addr, data', d'. repeat (split; [assumption|]). exact Honly.
Defined.

(** C10 as stated fails: with a 64-bit [size_t] and [data->length] holding
    [2^64 - 1] on entry, mapping plane 0 of the planes [[5, 5, 9]] of sizes
    [[16, 8, 4]] leaves 23, not [2^64 - 1 + 24]. *)
Lemma drv_dumb_bo_map_length_wraps :
  exists addr d',
    drv_dumb_bo_map unit (fake_ioctl []) fake_mmap 64 bo_shared
      (mk_map_info (2 ^ 64 - 1)) 0 fake_device
    = Returned (addr, mk_map_info 23) d' /\
    shared_bytes bo_shared 5 = 24 /\
    23 <> (2 ^ 64 - 1) + shared_bytes bo_shared 5.
Proof.
  eexists _, _. split; [vm_compute; reflexivity|].
  split; [reflexivity|]. vm_compute. discriminate.
Qed.

(** C5 on planes [[5, 5, 9]] of sizes [[16, 8, 4]], a 64-bit [size_t] and a
    zeroed [*data]: mapping plane 0 gives the 24 bytes of planes 0 and 1. *)
Lemma drv_dumb_bo_map_length_of_zeroed_witness :
  let data := mk_map_info 0 in
  handles bo_shared !! 0%nat = Some 5 /\
  (num_planes bo_shared <= length (handles bo_shared))%nat /\
  (num_planes bo_shared <= length (sizes bo_shared))%nat /\
  Forall (fun s => 0 <= s) (sizes bo_shared) /\
  map_info_length data = 0 /\
  shared_bytes bo_shared 5 < 2 ^ 64 /\
  (fake_ioctl [] (DRM_IOCTL_MODE_MAP_DUMB 5) (dev_kernel fake_device)).1.1 = 0 /\
  shared_bytes bo_shared 5 = 16 + 8 /\
  exists addr d',
    drv_dumb_bo_map unit (fake_ioctl []) fake_mmap 64 bo_shared data 0 fake_device
    = Returned (addr, mk_map_info (shared_bytes bo_shared 5)) d'.
Proof.
  intros data.
  assert (H1 : handles bo_shared !! 0%nat = Some 5) by reflexivity.
  assert (H2 : (num_planes bo_shared <= length (handles bo_shared))%nat)
    by (cbn; lia).
  assert (H3 : (num_planes bo_shared <= length (sizes bo_shared))%nat)
    by (cbn; lia).
  assert (H4 : Forall (fun s => 0 <= s) (sizes bo_shared))
    by (repeat constructor; lia).
  assert (H5 : map_info_length data = 0) by reflexivity.
  assert (H6 : shared_bytes bo_shared 5 < 2 ^ 64) by (vm_compute; reflexivity).
  assert (H7 : (fake_ioctl [] (DRM_IOCTL_MODE_MAP_DUMB 5)
                  (dev_kernel fake_device)).1.1 = 0) by reflexivity.
  repeat (split; [assumption|]). split; [reflexivity|].
  destruct (drv_dumb_bo_map_length_of_zeroed unit (fake_ioctl []) fake_mmap 64
              bo_shared data 0 5 fake_device H1 H2 H3 H4 H5 H6 H7)
    as (addr & d' & Hrun & _).
  exists addr, d'. exact Hrun.
Defined.

(** C5 as stated fails: with 5 in [data->length] on entry, mapping plane 1
    of the planes [[5, 5, 9]] of sizes [[16, 8, 4]] leaves 29, while the
    planes that share handle 5 have 24 bytes. *)
Lemma drv_dumb_bo_map_length_not_reset :
  exists addr d',
    drv_dumb_bo_map unit (fake_ioctl []) fake_mmap 64 bo_shared
      (mk_map_info 5) 1 fake_device
    = Returned (addr, mk_map_info 29) d' /\
    handles bo_shared !! 1%nat = Some 5 /\
    shared_bytes bo_shared 5 = 24 /\
    29 <> shared_bytes bo_shared 5.
Proof.
  eexists _, _. split; [vm_compute; reflexivity|].
  split_and!; try reflexivity. vm_compute. discriminate.
Qed.

(** ** Reference counts *)

Lemma wrap_succ bits n c :
  n = wrap bits c \/ n = 0 ->
  n < 2 ^ bits - 1 ->
  wrap bits (n + 1) = n + 1.
Proof.
  intros Hn Hlt. unfold wrap in *.
  destruct (Z.lt_ge_cases bits 0) as [Hneg|Hpos].
  - rewrite Z.pow_neg_r by exact Hneg. apply Z.mod_0_r.
  - assert (0 < 2 ^ bits) by (apply Z.pow_pos_nonneg; lia).
    apply Z.mod_small.
    destruct Hn as [->| ->]; [|lia].
    pose proof (Z.mod_pos_bound c (2 ^ bits) ltac:(lia)). lia.
Qed.

Section RefCountFacts.

Variable uintptr_bits : Z.

Local Abbreviation get := (drv_get_reference_count uintptr_bits).
Local Abbreviation increment := (drv_increment_reference_count uintptr_bits).
Local Abbreviation decrement := (drv_decrement_reference_count uintptr_bits).
Local Abbreviation count := (count_of uintptr_bits).
Local Abbreviation uintptr_t := (uintptr uintptr_bits).

Lemma get_Returned b plane h drv :
  handles b !! plane = Some h ->
  get b plane drv = Returned (count drv h) drv.
Proof.
  intros Hh. unfold drv_get_reference_count, count_of.
  rewrite (bind_Returned _ _ drv h drv) by (now rewrite Hh).
  unfold bind, drmHashLookup. now destruct (buffer_table drv !! h).
Qed.

Lemma increment_Returned b plane h drv :
  handles b !! plane = Some h ->
  increment b plane drv
  = Returned tt (mk_driver (<[h := uintptr_t (count drv h + 1)]> (buffer_table drv))).
Proof.
  intros Hh. unfold drv_increment_reference_count.
  rewrite (bind_Returned _ _ drv _ drv (get_Returned b plane h drv Hh)).
  rewrite (bind_Returned _ _ drv h drv) by (now rewrite Hh).
  unfold bind, drmHashDelete, drmHashInsert, modify. cbn [buffer_table].
  now rewrite lookup_delete_eq, insert_delete_eq.
Qed.

Lemma decrement_Returned b plane h drv :
  handles b !! plane = Some h ->
  decrement b plane drv
  = Returned tt
      (if 0 <? count drv h
       then mk_driver (<[h := uintptr_t (count drv h - 1)]> (buffer_table drv))
       else mk_driver (delete h (buffer_table drv))).
Proof.
  intros Hh. unfold drv_decrement_reference_count.
  rewrite (bind_Returned _ _ drv _ drv (get_Returned b plane h drv Hh)).
  rewrite (bind_Returned _ _ drv h drv) by (now rewrite Hh).
  unfold bind, drmHashDelete, drmHashInsert, modify. cbn [buffer_table].
  destruct (0 <? count drv h); [|reflexivity].
  cbn [buffer_table]. now rewrite lookup_delete_eq, insert_delete_eq.
Qed.

Lemma count_insert_eq t h v : count (mk_driver (<[h := v]> t)) h = uintptr_t v.
Proof. unfold count_of. cbn. now rewrite lookup_insert_eq. Qed.

Lemma count_insert_ne t h k v :
  k <> h -> count (mk_driver (<[h := v]> t)) k = count (mk_driver t) k.
Proof. intros Hne. unfold count_of. cbn. now rewrite lookup_insert_ne. Qed.

Lemma count_delete_eq t h : count (mk_driver (delete h t)) h = 0.
Proof. unfold count_of. cbn. now rewrite lookup_delete_eq. Qed.

Lemma count_delete_ne t h k :
  k <> h -> count (mk_driver (delete h t)) k = count (mk_driver t) k.
Proof. intros Hne. unfold count_of. cbn. now rewrite lookup_delete_ne. Qed.

Lemma count_empty h : count empty_table h = 0.
Proof. unfold count_of, empty_table. cbn [buffer_table]. now rewrite lookup_empty. Qed.

Lemma count_singleton h v : count (mk_driver {[h := v]}) h = uintptr_t v.
Proof.
  unfold count_of. cbn [buffer_table]. now rewrite lookup_singleton_eq.
Qed.

(** C4, as the code has it.  For every handle (the handle of a plane of a
    buffer object) and every table, [drv_increment_reference_count] returns
    and leaves the other handles' counts alone; the count it leaves for the
    handle is the count read before the call plus one in [uintptr_t]
    arithmetic, that is one more than before whenever the count was below
    [UINTPTR_MAX].  A handle with no entry counts as 0. *)
Theorem drv_increment_reference_count_adds_one b plane h drv :
  handles b !! plane = Some h ->
  exists drv',
    increment b plane drv = Returned tt drv' /\
    get b plane drv = Returned (count drv h) drv /\
    get b plane drv' = Returned (uintptr_t (count drv h + 1)) drv' /\
    (count drv h < UINTPTR_MAX uintptr_bits ->
     get b plane drv' = Returned (count drv h + 1) drv') /\
    (buffer_table drv !! h = None -> count drv h = 0) /\
    (forall k, k <> h -> count drv' k = count drv k).
Proof.
  intros Hh. eexists. split; [apply increment_Returned; exact Hh|].
  rewrite !(get_Returned b plane h) by exact Hh.
  rewrite count_insert_eq. unfold uintptr. rewrite wrap_wrap.
  split_and!; try reflexivity.
  - intros Hlt. f_equal.
    apply (wrap_succ _ _ (default 0 (buffer_table drv !! h))); [|exact Hlt].
    unfold count_of, uintptr. destruct (buffer_table drv !! h); auto.
  - intros Hnone. unfold count_of. now rewrite Hnone.
  - intros k Hne. rewrite count_insert_ne by exact Hne. now destruct drv.
Qed.

(** C3.  From the empty table the count of a handle reads 0; after one
    increment it reads 1; after the first and after the second of two
    decrements that follow it reads 0.  A decrement of a handle whose count
    reads 0 changes no count that a reader sees, leaves no entry for the
    handle, and leaves the table as it is when the handle has no entry. *)
Theorem reference_count_floor_at_zero b plane h :
  handles b !! plane = Some h ->
  0 < uintptr_bits ->
  get b plane empty_table = Returned 0 empty_table /\
  (increment b plane ;; get b plane) empty_table
  = Returned 1 (mk_driver {[h := 1]}) /\
  (increment b plane ;; decrement b plane ;; get b plane) empty_table
  = Returned 0 (mk_driver {[h := 0]}) /\
  (increment b plane ;; decrement b plane ;; decrement b plane ;; get b plane)
    empty_table
  = Returned 0 empty_table /\
  (forall drv,
     get b plane drv = Returned 0 drv ->
     exists drv',
       decrement b plane drv = Returned tt drv' /\
       get b plane drv' = Returned 0 drv' /\
       (forall k, count drv' k = count drv k) /\
       buffer_table drv' !! h = None /\
       (buffer_table drv !! h = None -> drv' = drv)).
Proof.
  intros Hh Hbits.
  assert (Hone : uintptr_t 1 = 1).
  { apply wrap_small. pose proof (Z.pow_gt_1 2 uintptr_bits ltac:(lia)). lia. }
  assert (Hzero : uintptr_t 0 = 0).
  { apply wrap_small. pose proof (Z.pow_gt_1 2 uintptr_bits ltac:(lia)). lia. }
  assert (Hinc : increment b plane empty_table = Returned tt (mk_driver {[h := 1]})).
  { rewrite (increment_Returned b plane h) by exact Hh.
    rewrite count_empty, Z.add_0_l, Hone. unfold empty_table.
    cbn [buffer_table]. now rewrite insert_empty. }
  assert (Hdec1 : decrement b plane (mk_driver {[h := 1]})
                  = Returned tt (mk_driver {[h := 0]})).
  { rewrite (decrement_Returned b plane h) by exact Hh.
    rewrite count_singleton, Hone. cbn [Z.ltb Z.compare buffer_table].
    change (1 - 1) with 0. now rewrite Hzero, insert_singleton_eq. }
  assert (Hdec2 : decrement b plane (mk_driver {[h := 0]})
                  = Returned tt empty_table).
  { rewrite (decrement_Returned b plane h) by exact Hh.
    rewrite count_singleton, Hzero. cbn [Z.ltb Z.compare buffer_table].
    now rewrite delete_singleton_eq. }
  split_and!.
  - rewrite (get_Returned b plane h) by exact Hh. now rewrite count_empty.
  - rewrite (bind_Returned _ _ _ _ _ Hinc), (get_Returned b plane h) by exact Hh.
    now rewrite count_singleton, Hone.
  - rewrite (bind_Returned _ _ _ _ _ Hinc), (bind_Returned _ _ _ _ _ Hdec1).
    rewrite (get_Returned b plane h) by exact Hh.
    now rewrite count_singleton, Hzero.
  - rewrite (bind_Returned _ _ _ _ _ Hinc), (bind_Returned _ _ _ _ _ Hdec1),
      (bind_Returned _ _ _ _ _ Hdec2).
    rewrite (get_Returned b plane h) by exact Hh. now rewrite count_empty.
  - intros drv Hget. rewrite (get_Returned b plane h) in Hget by exact Hh.
    injection Hget as Hcount.
    rewrite (decrement_Returned b plane h) by exact Hh. rewrite Hcount. cbn.
    eexists. split; [reflexivity|]. split_and!.
    + rewrite (get_Returned b plane h) by exact Hh.
      now rewrite count_delete_eq.
    + intros k. destruct (decide (k = h)) as [->|Hne].
      * now rewrite count_delete_eq, Hcount.
      * rewrite count_delete_ne by exact Hne. now destruct drv.
    + apply lookup_delete_eq.
    + intros Hnone. destruct drv as [t]. cbn in *. f_equal.
      now apply delete_id.
Qed.

End RefCountFacts.

(** C4 on handle 5 with a 64-bit [uintptr_t] and count 2. *)
Lemma drv_increment_reference_count_adds_one_witness :
  let drv := mk_driver {[5 := 2]} in
  handles bo_shared !! 0%nat = Some 5 /\
  count_of 64 drv 5 < UINTPTR_MAX 64 /\
  exists drv',
    drv_increment_reference_count 64 bo_shared 0 drv = Returned tt drv' /\
    drv_get_reference_count 64 bo_shared 0 drv = Returned 2 drv /\
    drv_get_reference_count 64 bo_shared 0 drv' = Returned 3 drv'.
Proof.
  intros drv.
  assert (Hh : handles bo_shared !! 0%nat = Some 5) by reflexivity.
  assert (Hlt : count_of 64 drv 5 < UINTPTR_MAX 64) by (vm_compute; reflexivity).
  split; [exact Hh|]. split; [exact Hlt|].
  destruct (drv_increment_reference_count_adds_one 64 bo_shared 0 5 drv Hh)
    as (drv' & Hinc & Hget & _ & Hexact & _).
  exists drv'. split; [exact Hinc|]. split; [exact Hget|].
  exact (Hexact Hlt).
Defined.

(** C4 as stated fails: with a 64-bit [uintptr_t] and the count of handle 5
    at [2^64 - 1], the count reads 0 after the increment, not [2^64]. *)
Lemma drv_increment_reference_count_wraps :
  let drv := mk_driver {[5 := 2 ^ 64 - 1]} in
  drv_get_reference_count 64 bo_shared 0 drv = Returned (2 ^ 64 - 1) drv /\
  (drv_increment_reference_count 64 bo_shared 0 ;;
   drv_get_reference_count 64 bo_shared 0) drv
  = Returned 0 (mk_driver {[5 := 0]}) /\
  0 <> (2 ^ 64 - 1) + 1.
Proof.
  intros drv. split; [vm_compute; reflexivity|].
  split; [vm_compute; reflexivity|]. vm_compute. discriminate.
Qed.

(** C3 on handle 5 with a 64-bit [uintptr_t]. *)
Lemma reference_count_floor_at_zero_witness :
  let get := drv_get_reference_count 64 bo_shared 0 in
  let increment := drv_increment_reference_count 64 bo_shared 0 in
  let decrement := drv_decrement_reference_count 64 bo_shared 0 in
  handles bo_shared !! 0%nat = Some 5 /\
  0 < 64 /\
  get empty_table = Returned 0 empty_table /\
  (increment ;; get) empty_table = Returned 1 (mk_driver {[5 := 1]}) /\
  (increment ;; decrement ;; get) empty_table
  = Returned 0 (mk_driver {[5 := 0]}) /\
  (increment ;; decrement ;; decrement ;; get) empty_table
  = Returned 0 empty_table.
Proof.
  intros get increment decrement.
  assert (Hh : handles bo_shared !! 0%nat = Some 5) by reflexivity.
  assert (Hbits : 0 < 64) by lia.
  split; [exact Hh|]. split; [exact Hbits|].
  destruct (reference_count_floor_at_zero 64 bo_shared 0 5 Hh Hbits)
    as (H0 & H1 & H2 & H3 & _).
  repeat (split; [assumption|]). exact H3.
Defined.

(** * Further properties of the code *)

(** ** Bits per pixel of the recognized formats *)

Section BppMoreFacts.

Variable NDEBUG : bool.
Variable numPlanes : drv_format_t -> nat.

Local Abbreviation bpp := (drv_bpp_from_format NDEBUG numPlanes).

(** X1.  For a format of the enumeration and a plane index that passes the
    assertion, [drv_bpp_from_format] returns 8, 16, 24 or 32 and prints
    nothing. *)
Theorem drv_bpp_from_format_recognized format plane err :
  recognized format = true ->
  NDEBUG || (plane <? numPlanes format)%nat = true ->
  exists v,
    bpp format plane err = Returned v err /\
    (v = 8 \/ v = 16 \/ v = 24 \/ v = 32).
Proof.
  intros Hrec Hpass. unfold drv_bpp_from_format.
  rewrite (bind_Returned _ _ err tt err) by (now apply assert_reporting_passes).
  destruct format; try discriminate Hrec;
    try (eexists; split; [reflexivity|]; tauto).
  destruct plane; eexists; (split; [reflexivity|]); tauto.
Qed.

(** X2.  Whenever [drv_bpp_from_format] returns, the value is 0 exactly
    for a format outside the enumeration, and exactly then one
    "UNKNOWN FORMAT" line has been printed: a caller can tell an unknown
    format by the 0. *)
Theorem drv_bpp_from_format_zero_iff_unknown format plane err v err' :
  bpp format plane err = Returned v err' ->
  (v = 0 <-> recognized format = false) /\
  (recognized format = true -> err' = err) /\
  (recognized format = false ->
   exists code, format = DRV_FORMAT_other code /\
                err' = err ++ [UNKNOWN_FORMAT code]).
Proof.
  intros Hrun. unfold drv_bpp_from_format in Hrun.
  apply bind_inv in Hrun as (u & s1 & Hassert & Hrun).
  unfold assert_reporting in Hassert.
  destruct (NDEBUG || (plane <? numPlanes format)%nat); [|discriminate].
  injection Hassert as _ <-.
  destruct format;
    try (injection Hrun as <- <-;
         split_and!; [split; discriminate|reflexivity|discriminate]).
  - destruct plane; injection Hrun as <- <-;
      (split_and!; [split; discriminate|reflexivity|discriminate]).
  - cbn in Hrun. injection Hrun as <- <-.
    split_and!; [tauto|discriminate|eauto].
Qed.

(** X3.  Only the semi-planar format looks at the plane index: for every
    other format two plane indices that pass the assertion get the same
    answer (the three planes of the planar format all report 8). *)
Theorem drv_bpp_from_format_plane_independent format p q err :
  format <> DRV_FORMAT_NV12 ->
  NDEBUG || (p <? numPlanes format)%nat = true ->
  NDEBUG || (q <? numPlanes format)%nat = true ->
  drv_bpp_from_format NDEBUG numPlanes format p err
  = drv_bpp_from_format NDEBUG numPlanes format q err.
Proof.
  intros Hne Hp Hq. unfold drv_bpp_from_format.
  rewrite !(bind_Returned _ _ err tt err) by (now apply assert_reporting_passes).
  destruct format; try reflexivity. contradiction.
Qed.

End BppMoreFacts.

(** X1 on the reference table. *)
Lemma drv_bpp_from_format_recognized_witness :
  recognized DRV_FORMAT_YVU420 = true /\
  false || (2 <? FormatInfo.drv_num_planes_from_format DRV_FORMAT_YVU420)%nat
  = true /\
  exists v,
    drv_bpp_from_format false FormatInfo.drv_num_planes_from_format
      DRV_FORMAT_YVU420 2 [] = Returned v [] /\
    (v = 8 \/ v = 16 \/ v = 24 \/ v = 32).
Proof.
  split; [reflexivity|]. split; [reflexivity|].
  apply (drv_bpp_from_format_recognized false
           FormatInfo.drv_num_planes_from_format DRV_FORMAT_YVU420 2 []);
    reflexivity.
Defined.

(** X2 with assertions compiled out, on an unknown code. *)
Lemma drv_bpp_from_format_zero_iff_unknown_witness :
  drv_bpp_from_format true FormatInfo.drv_num_planes_from_format
    (DRV_FORMAT_other 3) 0 [] = Returned 0 [UNKNOWN_FORMAT 3] /\
  (0 = 0 <-> recognized (DRV_FORMAT_other 3) = false).
Proof.
  assert (Hrun : drv_bpp_from_format true FormatInfo.drv_num_planes_from_format
                   (DRV_FORMAT_other 3) 0 [] = Returned 0 [UNKNOWN_FORMAT 3])
    by reflexivity.
  split; [exact Hrun|].
  exact (proj1 (drv_bpp_from_format_zero_iff_unknown true
                  FormatInfo.drv_num_planes_from_format
                  (DRV_FORMAT_other 3) 0 [] 0 [UNKNOWN_FORMAT 3] Hrun)).
Defined.

(** X3 on the planar format, planes 0 and 2. *)
Lemma drv_bpp_from_format_plane_independent_witness :
  DRV_FORMAT_YVU420 <> DRV_FORMAT_NV12 /\
  drv_bpp_from_format false FormatInfo.drv_num_planes_from_format
    DRV_FORMAT_YVU420 0 []
  = drv_bpp_from_format false FormatInfo.drv_num_planes_from_format
      DRV_FORMAT_YVU420 2 [].
Proof.
  assert (Hne : DRV_FORMAT_YVU420 <> DRV_FORMAT_NV12) by discriminate.
  split; [exact Hne|].
  apply (drv_bpp_from_format_plane_independent false
           FormatInfo.drv_num_planes_from_format DRV_FORMAT_YVU420 0 2 [] Hne);
    reflexivity.
Defined.

(** ** The binary logarithm *)

(** The loop counts the shifts that leave something: with enough turns for
    the width of [value] it ends, [Z.log2 value] above where it started. *)
Lemma log_base2_loop_spec fuel : forall value ret,
  (fuel <= 32)%nat ->
  0 <= value < 2 ^ Z.of_nat fuel ->
  (0 < fuel)%nat ->
  log_base2_loop fuel value ret = Some (ret + Z.log2 value).
Proof.
  induction fuel as [|fuel IH]; intros value ret Hfuel Hv Hpos; [lia|].
  cbn [log_base2_loop].
  assert (Hshift : Z.shiftr value 1 = value / 2)
    by (rewrite Z.shiftr_div_pow2 by lia; reflexivity).
  assert (Hhalf : 0 <= value / 2 < 2 ^ Z.of_nat fuel).
  { rewrite Nat2Z.inj_succ, Z.pow_succ_r in Hv by lia.
    split; [apply Z.div_pos; lia|].
    apply Z.div_lt_upper_bound; lia. }
  assert (Hfit : uint32 (Z.shiftr value 1) = value / 2).
  { rewrite Hshift. apply uint32_small. unfold UINT32_MAX.
    assert (2 ^ Z.of_nat fuel <= 2 ^ 31) by (apply Z.pow_le_mono_r; lia).
    lia. }
  rewrite Hfit.
  destruct (Z.eqb_spec (value / 2) 0) as [Hzero|Hnz].
  - f_equal.
    assert (value < 2).
    { pose proof (Z.div_mod value 2 ltac:(lia)).
      pose proof (Z.mod_pos_bound value 2 ltac:(lia)). lia. }
    assert (Hlog : Z.log2 value = 0).
    { destruct (Z.eq_dec value 0) as [->|]; [reflexivity|].
      replace value with 1 by lia. reflexivity. }
    lia.
  - destruct fuel as [|fuel'].
    + cbn in Hhalf. lia.
    + rewrite IH by lia. f_equal.
      assert (2 <= value).
      { pose proof (Z.div_mod value 2 ltac:(lia)).
        pose proof (Z.mod_pos_bound value 2 ltac:(lia)). lia. }
      assert (Hlog : Z.log2 (value / 2) = Z.log2 value - 1).
      { rewrite <- Hshift, Z.log2_shiftr by lia.
        pose proof (Z.log2_le_mono 2 value ltac:(lia)) as Hm.
        change (Z.log2 2) with 1 in Hm. lia. }
      lia.
Qed.

Lemma drv_log_base2_log2 value :
  drv_log_base2 value = Some (Z.log2 (uint32 value)).
Proof.
  unfold drv_log_base2.
  pose proof (uint32_range value) as Hr. unfold UINT32_MAX in Hr.
  rewrite log_base2_loop_spec
    by (try lia; change (2 ^ Z.of_nat 32) with (2 ^ 32); lia).
  cbn [option_map]. f_equal. rewrite Z.add_0_l.
  apply uint32_small. unfold UINT32_MAX.
  pose proof (Z.log2_nonneg (uint32 value)).
  pose proof (Z.log2_le_mono (uint32 value) (2 ^ 32 - 1) ltac:(lia)) as Hm.
  change (Z.log2 (2 ^ 32 - 1)) with 31 in Hm. lia.
Qed.

(** X4.  [drv_log_base2] returns on every argument, and what it returns is
    the position of the highest set bit of the 32-bit value: [r <= 31] with
    [2^r <= value < 2^(r+1)] for a value that is not 0, and 0 for the
    value 0 (the same answer as for 1). *)
Theorem drv_log_base2_floor value :
  exists r,
    drv_log_base2 value = Some r /\
    0 <= r <= 31 /\
    (0 < uint32 value -> 2 ^ r <= uint32 value < 2 ^ (r + 1)) /\
    (uint32 value = 0 -> r = 0).
Proof.
  exists (Z.log2 (uint32 value)). split; [apply drv_log_base2_log2|].
  pose proof (uint32_range value) as Hr. unfold UINT32_MAX in Hr.
  split_and!.
  - apply Z.log2_nonneg.
  - pose proof (Z.log2_le_mono (uint32 value) (2 ^ 32 - 1) ltac:(lia)) as Hm.
    change (Z.log2 (2 ^ 32 - 1)) with 31 in Hm. exact Hm.
  - intros Hpos. pose proof (Z.log2_spec (uint32 value) Hpos) as Hs.
    rewrite <- Z.add_1_r in Hs. exact Hs.
  - intros ->. reflexivity.
Qed.

(** X5.  [drv_log_base2] undoes a left shift of 1: it returns [k] on
    [1 << k] for every [k] from 0 to 31, and also on the last value before
    the next power of two. *)
Theorem drv_log_base2_of_shift k :
  0 <= k <= 31 ->
  drv_log_base2 (Z.shiftl 1 k) = Some k /\
  drv_log_base2 (Z.shiftl 1 (k + 1) - 1) = Some k.
Proof.
  intros Hk. rewrite !drv_log_base2_log2, !Z.shiftl_1_l.
  assert (Hp : 2 ^ k <= 2 ^ 31) by (apply Z.pow_le_mono_r; lia).
  assert (Hpos : 0 < 2 ^ k) by (apply Z.pow_pos_nonneg; lia).
  assert (Hdouble : 2 ^ (k + 1) = 2 * 2 ^ k) by (apply Z.pow_succ_r; lia).
  change (2 ^ 31) with 2147483648 in Hp.
  split.
  - rewrite uint32_small by (unfold UINT32_MAX; cbn; lia).
    f_equal. apply Z.log2_pow2. lia.
  - rewrite uint32_small by (unfold UINT32_MAX; cbn; lia).
    f_equal. apply Z.log2_unique; [lia|]. rewrite Hdouble. lia.
Qed.

(** X6.  [drv_log_base2] is monotone on 32-bit values. *)
Theorem drv_log_base2_monotone a b :
  0 <= a <= b ->
  b <= UINT32_MAX ->
  exists ra rb,
    drv_log_base2 a = Some ra /\ drv_log_base2 b = Some rb /\ ra <= rb.
Proof.
  intros Hab Hb. exists (Z.log2 a), (Z.log2 b).
  rewrite !drv_log_base2_log2, !uint32_small by lia.
  split_and!; try reflexivity. apply Z.log2_le_mono. lia.
Qed.

(** X5 at [k = 31], the highest bit. *)
Lemma drv_log_base2_of_shift_witness :
  0 <= 31 <= 31 /\
  drv_log_base2 (Z.shiftl 1 31) = Some 31 /\
  drv_log_base2 (Z.shiftl 1 (31 + 1) - 1) = Some 31.
Proof.
  assert (Hk : 0 <= 31 <= 31) by lia.
  split; [exact Hk|]. exact (drv_log_base2_of_shift 31 Hk).
Defined.

(** X6 on 255 and 256. *)
Lemma drv_log_base2_monotone_witness :
  0 <= 255 <= 256 /\ 256 <= UINT32_MAX /\
  exists ra rb,
    drv_log_base2 255 = Some ra /\ drv_log_base2 256 = Some rb /\ ra <= rb.
Proof.
  assert (Hab : 0 <= 255 <= 256) by lia.
  assert (Hb : 256 <= UINT32_MAX) by (unfold UINT32_MAX; lia).
  split; [exact Hab|]. split; [exact Hb|].
  exact (drv_log_base2_monotone 255 256 Hab Hb).
Defined.

(** ** More on the plane layout *)

Section LayoutMoreFacts.

Variable NDEBUG : bool.
Variable numPlanes : drv_format_t -> nat.
Variable strideForPlane : drv_format_t -> Z -> nat -> Z.
Variable sizeForPlane : drv_format_t -> Z -> Z -> nat -> Z.
Variable format : drv_format_t.
Variable width height : Z.

Local Abbreviation stride_of := (plane_stride strideForPlane format width).
Local Abbreviation size_of :=
  (plane_size strideForPlane sizeForPlane format width height).
Local Abbreviation bytes :=
  (planes_bytes strideForPlane sizeForPlane format width height).
Local Abbreviation layout :=
  (drv_bo_from_format NDEBUG numPlanes strideForPlane sizeForPlane
     width height format).

(** The buffer object that a call on a well-formed buffer object leaves. *)
Lemma drv_bo_from_format_result b :
  (1 <= numPlanes format <= DRV_MAX_PLANES)%nat ->
  bo_arrays b ->
  (1 <= num_planes b <= DRV_MAX_PLANES)%nat ->
  exists b',
    layout b = Returned 0 b' /\
    num_planes b' = num_planes b /\
    handles b' = handles b /\
    bo_arrays b' /\
    (forall j, (j < numPlanes format)%nat ->
       strides b' !! j = Some (stride_of j) /\
       sizes b' !! j = Some (size_of j) /\
       offsets b' !! j = Some (uint32 (bytes j))) /\
    (forall j, (numPlanes format <= j)%nat ->
       strides b' !! j = strides b !! j /\
       sizes b' !! j = sizes b !! j /\
       offsets b' !! j = offsets b !! j) /\
    (exists o s,
       offsets b' !! (num_planes b - 1)%nat = Some o /\
       sizes b' !! (num_planes b - 1)%nat = Some s /\
       total_size b' = uint32 (o + s)).
Proof.
  intros Hn Harr Hb.
  destruct (drv_bo_from_format_runs NDEBUG numPlanes strideForPlane
              sizeForPlane format width height b Hn Harr Hb)
    as (r & b1 & o & s & Hrun & Hol & Hsl & Hcall).
  destruct Harr as (Hh & Ho & Hs & Hst).
  destruct (planes_loop_spec strideForPlane sizeForPlane format width height
              (numPlanes format) 0 0 b)
    as (r' & b1' & Hrun' & Hnp & Hhd & _ & Lst & Lsz & Lof & Hin & Hout);
    try lia.
  rewrite Hrun in Hrun'. injection Hrun' as <- <-.
  exists (set_total_size (uint32 (o + s)) b1).
  cbn [set_total_size num_planes handles strides sizes offsets total_size].
  split_and!; try assumption.
  - unfold bo_arrays. cbn. rewrite Hhd, Lst, Lsz, Lof. done.
  - intros j Hj. destruct (Hin j ltac:(lia)) as (-> & -> & ->).
    split_and!; try reflexivity. do 2 f_equal. cbn. lia.
  - intros j Hj. apply Hout. lia.
  - eauto.
Qed.

(** X7.  [drv_bo_from_format] writes the stride, size and offset of the
    format's planes and the total, and nothing else: the plane count and the
    handles of the buffer object and the entries of the planes from
    [numPlanes(format)] on are as before. *)
Theorem drv_bo_from_format_frame b :
  (1 <= numPlanes format <= DRV_MAX_PLANES)%nat ->
  bo_arrays b ->
  (1 <= num_planes b <= DRV_MAX_PLANES)%nat ->
  exists b',
    layout b = Returned 0 b' /\
    num_planes b' = num_planes b /\
    handles b' = handles b /\
    bo_arrays b' /\
    (forall j, (numPlanes format <= j)%nat ->
       strides b' !! j = strides b !! j /\
       sizes b' !! j = sizes b !! j /\
       offsets b' !! j = offsets b !! j).
Proof.
  intros Hn Harr Hb.
  destruct (drv_bo_from_format_result b Hn Harr Hb)
    as (b' & Hrun & Hnp & Hh & Harr' & _ & Hout & _).
  exists b'. split_and!; assumption.
Qed.

(** X8.  When the buffer object has the format's plane count and the
    planes' sizes add up to at most [UINT32_MAX], the layout is a packing:
    the total is the sum of the sizes, every plane ends where the next one
    starts or before any later plane, and every plane ends inside the
    total. *)
Theorem drv_bo_from_format_planes_disjoint b :
  (1 <= numPlanes format <= DRV_MAX_PLANES)%nat ->
  bo_arrays b ->
  num_planes b = numPlanes format ->
  bytes (numPlanes format) <= UINT32_MAX ->
  exists b',
    layout b = Returned 0 b' /\
    total_size b' = bytes (numPlanes format) /\
    (forall i j oi si oj,
       (i < j < numPlanes format)%nat ->
       offsets b' !! i = Some oi -> sizes b' !! i = Some si ->
       offsets b' !! j = Some oj ->
       0 <= oi /\ 0 <= si /\ oi + si <= oj) /\
    (forall i oi si,
       (i < numPlanes format)%nat ->
       offsets b' !! i = Some oi -> sizes b' !! i = Some si ->
       oi + si <= total_size b').
Proof.
  intros Hn Harr Hnp Hfit.
  destruct (drv_bo_from_format_result b Hn Harr ltac:(lia))
    as (b' & Hrun & _ & _ & _ & Hin & _ & (o & s & Hol & Hsl & Htot)).
  assert (Hexact : forall i, (i <= numPlanes format)%nat ->
                     uint32 (bytes i) = bytes i).
  { intros i Hi. apply uint32_small.
    pose proof (bytes_mono strideForPlane sizeForPlane format width height
                  i (numPlanes format) Hi). lia. }
  assert (Htotal : total_size b' = bytes (numPlanes format)).
  { destruct (Hin (num_planes b - 1)%nat ltac:(lia)) as (_ & Hs' & Ho').
    rewrite Hol in Ho'. rewrite Hsl in Hs'.
    injection Ho' as ->. injection Hs' as ->.
    rewrite Htot, Hexact by lia.
    assert (HS : bytes (numPlanes format)
                 = bytes (num_planes b - 1) + size_of (num_planes b - 1)%nat).
    { replace (numPlanes format) with (S (num_planes b - 1)) at 1 by lia.
      reflexivity. }
    rewrite <- HS. apply Hexact. lia. }
  exists b'. split_and!; try assumption.
  - intros i j oi si oj Hij Hoi Hsi Hoj.
    destruct (Hin i ltac:(lia)) as (_ & Hs' & Ho').
    destruct (Hin j ltac:(lia)) as (_ & _ & Ho'').
    rewrite Hoi in Ho'. rewrite Hsi in Hs'. rewrite Hoj in Ho''.
    injection Ho' as ->. injection Hs' as ->. injection Ho'' as ->.
    rewrite !Hexact by lia.
    pose proof (bytes_mono strideForPlane sizeForPlane format width height
                  (S i) j ltac:(lia)) as Hm.
    pose proof (bytes_mono strideForPlane sizeForPlane format width height
                  i i ltac:(lia)).
    pose proof (size_of_range strideForPlane sizeForPlane format width height i).
    cbn [planes_bytes] in Hm. lia.
  - intros i oi si Hi Hoi Hsi.
    destruct (Hin i ltac:(lia)) as (_ & Hs' & Ho').
    rewrite Hoi in Ho'. rewrite Hsi in Hs'.
    injection Ho' as ->. injection Hs' as ->.
    rewrite Htotal, Hexact by lia.
    pose proof (bytes_mono strideForPlane sizeForPlane format width height
                  (S i) (numPlanes format) ltac:(lia)) as Hm.
    cbn [planes_bytes] in Hm. lia.
Qed.

(** X9.  A format of one plane on a buffer object of one plane: the offset
    is 0 and the total is the size of the plane, whatever the size is. *)
Theorem drv_bo_from_format_single_plane b :
  numPlanes format = 1%nat ->
  bo_arrays b ->
  num_planes b = 1%nat ->
  exists b',
    layout b = Returned 0 b' /\
    strides b' !! 0%nat = Some (stride_of 0) /\
    sizes b' !! 0%nat = Some (size_of 0) /\
    offsets b' !! 0%nat = Some 0 /\
    total_size b' = size_of 0.
Proof.
  intros Hone Harr Hnp.
  destruct (drv_bo_from_format_result b) as
    (b' & Hrun & _ & _ & _ & Hin & _ & (o & s & Hol & Hsl & Htot));
    try assumption; try (unfold DRV_MAX_PLANES; lia).
  destruct (Hin 0%nat ltac:(lia)) as (Hst' & Hs' & Ho').
  rewrite Hnp in Hol, Hsl. cbn in Hol, Hsl.
  rewrite Hol in Ho'. rewrite Hsl in Hs'.
  injection Ho' as ->. injection Hs' as ->.
  exists b'. split_and!; try assumption.
  rewrite Htot. cbn [planes_bytes].
  change (uint32 0) with 0. rewrite Z.add_0_l.
  apply wrap_wrap.
Qed.

(** X10.  When the buffer object has more planes than the format, the
    total is taken from its last plane, which the call has not written: it
    is the 32-bit sum of the offset and size found there before the call. *)
Theorem drv_bo_from_format_total_of_unwritten_plane b o s :
  (1 <= numPlanes format < num_planes b)%nat ->
  bo_arrays b ->
  (num_planes b <= DRV_MAX_PLANES)%nat ->
  offsets b !! (num_planes b - 1)%nat = Some o ->
  sizes b !! (num_planes b - 1)%nat = Some s ->
  exists b',
    layout b = Returned 0 b' /\
    total_size b' = uint32 (o + s).
Proof.
  intros Hn Harr Hb Ho Hs.
  destruct (drv_bo_from_format_result b) as
    (b' & Hrun & _ & _ & _ & _ & Hout & (o' & s' & Hol & Hsl & Htot));
    try assumption; try lia.
  destruct (Hout (num_planes b - 1)%nat ltac:(lia)) as (_ & Hs' & Ho').
  rewrite Hol, Ho in Ho'. rewrite Hsl, Hs in Hs'.
  injection Ho' as ->. injection Hs' as ->.
  exists b'. split; assumption.
Qed.

(** X11.  Laying out twice is laying out once: a second call with the same
    format and dimensions leaves the buffer object as the first one left
    it. *)
Theorem drv_bo_from_format_idempotent b :
  (1 <= numPlanes format <= DRV_MAX_PLANES)%nat ->
  bo_arrays b ->
  (1 <= num_planes b <= DRV_MAX_PLANES)%nat ->
  exists b',
    layout b = Returned 0 b' /\
    layout b' = Returned 0 b'.
Proof.
  intros Hn Harr Hb.
  destruct (drv_bo_from_format_result b Hn Harr Hb)
    as (b' & Hrun & Hnp & Hh & Harr' & Hin & Hout & (o & s & Hol & Hsl & Htot)).
  exists b'. split; [exact Hrun|].
  destruct (drv_bo_from_format_result b' Hn Harr' ltac:(lia))
    as (b'' & Hrun' & Hnp' & Hh' & Harr'' & Hin' & Hout'
        & (o' & s' & Hol' & Hsl' & Htot')).
  rewrite Hrun'. f_equal.
  assert (Heq : forall j,
            strides b'' !! j = strides b' !! j /\
            sizes b'' !! j = sizes b' !! j /\
            offsets b'' !! j = offsets b' !! j).
  { intros j. destruct (Nat.lt_ge_cases j (numPlanes format)) as [Hj|Hj].
    - destruct (Hin j Hj) as (-> & -> & ->). now apply Hin'.
    - now apply Hout'. }
  assert (Hst : strides b'' = strides b') by (apply list_eq; intros j; apply Heq).
  assert (Hsz : sizes b'' = sizes b') by (apply list_eq; intros j; apply Heq).
  assert (Hof : offsets b'' = offsets b') by (apply list_eq; intros j; apply Heq).
  assert (Hto : total_size b'' = total_size b').
  { rewrite Htot', Htot. rewrite Hnp in Hol', Hsl'.
    rewrite Hof, Hol in Hol'. rewrite Hsz, Hsl in Hsl'.
    injection Hol' as ->. injection Hsl' as ->. reflexivity. }
  destruct b'', b'. cbn in *. congruence.
Qed.

End LayoutMoreFacts.

(** X7 on the reference table: the semi-planar format on a buffer object
    that carries handles and a third plane. *)
Lemma drv_bo_from_format_frame_witness :
  (1 <= FormatInfo.drv_num_planes_from_format DRV_FORMAT_NV12
   <= DRV_MAX_PLANES)%nat /\
  bo_arrays bo_shared /\
  (1 <= num_planes bo_shared <= DRV_MAX_PLANES)%nat /\
  exists b',
    drv_bo_from_format false FormatInfo.drv_num_planes_from_format
      FormatInfo.drv_stride_from_format FormatInfo.drv_size_from_format
      4 4 DRV_FORMAT_NV12 bo_shared = Returned 0 b' /\
    num_planes b' = 3%nat /\
    handles b' = [5; 5; 9; 0] /\
    offsets b' !! 2%nat = Some 24 /\
    sizes b' !! 2%nat = Some 4.
Proof.
  assert (Hn : (1 <= FormatInfo.drv_num_planes_from_format DRV_FORMAT_NV12
                <= DRV_MAX_PLANES)%nat) by (cbn; unfold DRV_MAX_PLANES; lia).
  assert (Harr : bo_arrays bo_shared) by (repeat split).
  assert (Hb : (1 <= num_planes bo_shared <= DRV_MAX_PLANES)%nat)
    by (cbn; unfold DRV_MAX_PLANES; lia).
  repeat (split; [assumption|]).
  destruct (drv_bo_from_format_frame false
              FormatInfo.drv_num_planes_from_format
              FormatInfo.drv_stride_from_format FormatInfo.drv_size_from_format
              DRV_FORMAT_NV12 4 4 bo_shared Hn Harr Hb)
    as (b' & Hrun & Hnp & Hh & _ & Hout).
  exists b'. split; [exact Hrun|]. split; [exact Hnp|]. split; [exact Hh|].
  destruct (Hout 2%nat ltac:(cbn; lia)) as (_ & Hs & Ho).
  split; [exact Ho|exact Hs].
Defined.

(** X8 on the reference table: the planar format at 4 x 4. *)
Lemma drv_bo_from_format_planes_disjoint_witness :
  let numPlanes := FormatInfo.drv_num_planes_from_format in
  let total :=
    planes_bytes FormatInfo.drv_stride_from_format
      FormatInfo.drv_size_from_format DRV_FORMAT_YVU420 4 4
      (numPlanes DRV_FORMAT_YVU420) in
  (1 <= numPlanes DRV_FORMAT_YVU420 <= DRV_MAX_PLANES)%nat /\
  bo_arrays (bo_zero 3) /\
  num_planes (bo_zero 3) = numPlanes DRV_FORMAT_YVU420 /\
  total <= UINT32_MAX /\
  exists b',
    drv_bo_from_format false numPlanes FormatInfo.drv_stride_from_format
      FormatInfo.drv_size_from_format 4 4 DRV_FORMAT_YVU420 (bo_zero 3)
    = Returned 0 b' /\
    total_size b' = total.
Proof.
  intros numPlanes total.
  assert (Hn : (1 <= numPlanes DRV_FORMAT_YVU420 <= DRV_MAX_PLANES)%nat)
    by (cbn; unfold DRV_MAX_PLANES; lia).
  assert (Harr : bo_arrays (bo_zero 3)) by (repeat split).
  assert (Hnp : num_planes (bo_zero 3) = numPlanes DRV_FORMAT_YVU420)
    by reflexivity.
  assert (Hfit : total <= UINT32_MAX) by (vm_compute; discriminate).
  repeat (split; [assumption|]).
  destruct (drv_bo_from_format_planes_disjoint false numPlanes
              FormatInfo.drv_stride_from_format FormatInfo.drv_size_from_format
              DRV_FORMAT_YVU420 4 4 (bo_zero 3) Hn Harr Hnp Hfit)
    as (b' & Hrun & Htot & _).
  exists b'. split; assumption.
Defined.

(** X9 on the reference table: a 32-bit format at 2 x 2. *)
Lemma drv_bo_from_format_single_plane_witness :
  FormatInfo.drv_num_planes_from_format DRV_FORMAT_ARGB8888 = 1%nat /\
  bo_arrays (bo_zero 1) /\
  num_planes (bo_zero 1) = 1%nat /\
  exists b',
    drv_bo_from_format false FormatInfo.drv_num_planes_from_format
      FormatInfo.drv_stride_from_format FormatInfo.drv_size_from_format
      2 2 DRV_FORMAT_ARGB8888 (bo_zero 1) = Returned 0 b' /\
    offsets b' !! 0%nat = Some 0 /\
    total_size b'
    = plane_size FormatInfo.drv_stride_from_format
        FormatInfo.drv_size_from_format DRV_FORMAT_ARGB8888 2 2 0.
Proof.
  assert (Hone : FormatInfo.drv_num_planes_from_format DRV_FORMAT_ARGB8888
                 = 1%nat) by reflexivity.
  assert (Harr : bo_arrays (bo_zero 1)) by (repeat split).
  assert (Hnp : num_planes (bo_zero 1) = 1%nat) by reflexivity.
  repeat (split; [assumption|]).
  destruct (drv_bo_from_format_single_plane false
              FormatInfo.drv_num_planes_from_format
              FormatInfo.drv_stride_from_format FormatInfo.drv_size_from_format
              DRV_FORMAT_ARGB8888 2 2 (bo_zero 1) Hone Harr Hnp)
    as (b' & Hrun & _ & _ & Ho & Htot).
  exists b'. split; [exact Hrun|]. split; assumption.
Defined.

(** X10 on the reference table: the two-plane format on a buffer object of
    three planes, whose third plane has offset 24 and size 4. *)
Lemma drv_bo_from_format_total_of_unwritten_plane_witness :
  (1 <= FormatInfo.drv_num_planes_from_format DRV_FORMAT_NV12
   < num_planes bo_shared)%nat /\
  bo_arrays bo_shared /\
  (num_planes bo_shared <= DRV_MAX_PLANES)%nat /\
  offsets bo_shared !! (num_planes bo_shared - 1)%nat = Some 24 /\
  sizes bo_shared !! (num_planes bo_shared - 1)%nat = Some 4 /\
  exists b',
    drv_bo_from_format false FormatInfo.drv_num_planes_from_format
      FormatInfo.drv_stride_from_format FormatInfo.drv_size_from_format
      1024 1024 DRV_FORMAT_NV12 bo_shared = Returned 0 b' /\
    total_size b' = uint32 (24 + 4).
Proof.
  assert (Hn : (1 <= FormatInfo.drv_num_planes_from_format DRV_FORMAT_NV12
                < num_planes bo_shared)%nat) by (cbn; lia).
  assert (Harr : bo_arrays bo_shared) by (repeat split).
  assert (Hb : (num_planes bo_shared <= DRV_MAX_PLANES)%nat)
    by (cbn; unfold DRV_MAX_PLANES; lia).
  assert (Ho : offsets bo_shared !! (num_planes bo_shared - 1)%nat = Some 24)
    by reflexivity.
  assert (Hs : sizes bo_shared !! (num_planes bo_shared - 1)%nat = Some 4)
    by reflexivity.
  repeat (split; [assumption|]).
  exact (drv_bo_from_format_total_of_unwritten_plane false
           FormatInfo.drv_num_planes_from_format
           FormatInfo.drv_stride_from_format FormatInfo.drv_size_from_format
           DRV_FORMAT_NV12 1024 1024 bo_shared 24 4 Hn Harr Hb Ho Hs).
Defined.

(** X11 on the reference table. *)
Lemma drv_bo_from_format_idempotent_witness :
  let layout :=
    drv_bo_from_format false FormatInfo.drv_num_planes_from_format
      FormatInfo.drv_stride_from_format FormatInfo.drv_size_from_format
      4 4 DRV_FORMAT_NV12 in
  (1 <= FormatInfo.drv_num_planes_from_format DRV_FORMAT_NV12
   <= DRV_MAX_PLANES)%nat /\
  bo_arrays (bo_zero 2) /\
  (1 <= num_planes (bo_zero 2) <= DRV_MAX_PLANES)%nat /\
  exists b', layout (bo_zero 2) = Returned 0 b' /\ layout b' = Returned 0 b'.
Proof.
  intros layout.
  assert (Hn : (1 <= FormatInfo.drv_num_planes_from_format DRV_FORMAT_NV12
                <= DRV_MAX_PLANES)%nat) by (cbn; unfold DRV_MAX_PLANES; lia).
  assert (Harr : bo_arrays (bo_zero 2)) by (repeat split).
  assert (Hb : (1 <= num_planes (bo_zero 2) <= DRV_MAX_PLANES)%nat)
    by (cbn; unfold DRV_MAX_PLANES; lia).
  repeat (split; [assumption|]).
  exact (drv_bo_from_format_idempotent false
           FormatInfo.drv_num_planes_from_format
           FormatInfo.drv_stride_from_format FormatInfo.drv_size_from_format
           DRV_FORMAT_NV12 4 4 (bo_zero 2) Hn Harr Hb).
Defined.

(** ** More on first occurrences *)

Lemma first_occurrences_length l : forall seen,
  (length (first_occurrences seen l) <= length l)%nat.
Proof.
  induction l as [|x l IH]; intros seen; cbn [first_occurrences length]; [lia|].
  case_bool_decide; cbn [length]; specialize (IH (seen ++ [x])); lia.
Qed.

Lemma first_occurrences_NoDup_id l : forall seen,
  NoDup l -> (forall x, x ∈ l -> x ∉ seen) ->
  first_occurrences seen l = l.
Proof.
  induction l as [|x l IH]; intros seen Hnd Hdis; cbn [first_occurrences];
    [reflexivity|].
  apply NoDup_cons in Hnd as [Hx Hnd].
  rewrite bool_decide_eq_false_2 by (apply Hdis, elem_of_cons; now left).
  f_equal. apply IH; [exact Hnd|].
  intros y Hy. rewrite elem_of_app, list_elem_of_singleton.
  intros [Hs| ->]; [|contradiction].
  apply (Hdis y); [apply elem_of_cons; now right|exact Hs].
Qed.

Lemma first_occurrences_seen l : forall seen,
  (forall x, x ∈ l -> x ∈ seen) -> first_occurrences seen l = [].
Proof.
  induction l as [|x l IH]; intros seen Hall; cbn [first_occurrences];
    [reflexivity|].
  rewrite bool_decide_eq_true_2 by (apply Hall, elem_of_cons; now left).
  apply IH. intros y Hy. apply elem_of_app. left.
  apply Hall, elem_of_cons. now right.
Qed.

Lemma errors_none (reply : Z -> Z) (l : list Z) :
  (forall h, h ∈ l -> reply h = 0) -> errors (reply <$> l) = [].
Proof.
  unfold errors. induction l as [|h l IH]; intros Hall; [reflexivity|].
  cbn [fmap list_fmap].
  rewrite filter_cons_False
    by (intros Hn; apply Hn, Hall, elem_of_cons; now left).
  apply IH. intros x Hx. apply Hall, elem_of_cons. now right.
Qed.

Lemma close_failures_none (reply : Z -> Z) (l : list Z) :
  (forall h, h ∈ l -> reply h = 0) ->
  close_failures ((fun h => (DRM_IOCTL_GEM_CLOSE h, reply h)) <$> l) = [].
Proof.
  unfold close_failures. induction l as [|h l IH]; intros Hall; [reflexivity|].
  cbn. rewrite (Hall h) by (apply elem_of_cons; now left). cbn.
  apply IH. intros x Hx. apply Hall, elem_of_cons. now right.
Qed.

(** ** More on releasing handles *)

Section DestroyMoreFacts.

Variable kernel : Type.
Variable drmIoctl : ioctl_request -> kernel -> Z * Z * kernel.

Local Abbreviation destroy := (drv_gem_bo_destroy kernel drmIoctl).
Local Abbreviation destroy_planes := (gem_bo_destroy_planes kernel drmIoctl).

(** The loop on a kernel whose answer to the release of a handle does not
    depend on its state. *)
Lemma destroy_planes_replies (reply : Z -> Z) b count : forall plane error d,
  (forall h k, (drmIoctl (DRM_IOCTL_GEM_CLOSE h) k).1.1 = reply h) ->
  (plane + count <= length (handles b))%nat ->
  exists d',
    let released :=
      first_occurrences (take plane (handles b))
        (take count (drop plane (handles b))) in
    let answered := (fun h => (DRM_IOCTL_GEM_CLOSE h, reply h)) <$> released in
    destroy_planes b count plane error d
    = Returned (default error (last (errors (reply <$> released)))) d' /\
    dev_ioctls d' = dev_ioctls d ++ answered /\
    dev_stderr d' = dev_stderr d ++ close_failures answered.
Proof.
  induction count as [|count IH]; intros plane error d Hreply Hlen;
    cbn [gem_bo_destroy_planes].
  - exists d. rewrite take_0. cbn. now rewrite !app_nil_r.
  - destruct (lookup_lt_is_Some_2 (handles b) plane ltac:(lia)) as [h Hh].
    rewrite (drop_S _ _ _ Hh). cbn [take first_occurrences].
    rewrite <- (take_S_r _ _ _ Hh).
    case_bool_decide as Hseen.
    + rewrite (bind_Returned _ _ d error d)
        by (eapply destroy_plane_skips; eassumption).
      apply IH; [exact Hreply|lia].
    + destruct (destroy_plane_closes kernel drmIoctl b plane h error d Hh Hseen)
        as (ret & k & Hret & Hstep).
      rewrite Hreply in Hret. subst ret.
      rewrite (bind_Returned _ _ _ _ _ Hstep).
      destruct (IH (S plane) (if reply h =? 0 then error else reply h)
                  (mk_device k
                     (dev_ioctls d ++ [(DRM_IOCTL_GEM_CLOSE h, reply h)])
                     (dev_stderr d
                      ++ close_failures [(DRM_IOCTL_GEM_CLOSE h, reply h)]))
                  Hreply ltac:(lia))
        as (d' & Hrun & Hio & Herr).
      exists d'. cbn zeta in *. cbn [dev_ioctls dev_stderr] in Hio, Herr.
      rewrite Hrun, Hio, Herr, <- !app_assoc. cbn [fmap list_fmap app].
      split_and!.
      * f_equal. unfold errors.
        destruct (Z.eqb_spec (reply h) 0) as [Hz|Hne].
        -- rewrite filter_cons_False by (intros Hn; now apply Hn).
           reflexivity.
        -- rewrite filter_cons_True by exact Hne. rewrite last_cons.
           now destruct (last _).
      * reflexivity.
      * f_equal. unfold close_failures. cbn.
        now destruct (reply h =? 0).
Qed.

(** X12.  On a kernel whose answer to the release of a handle is a function
    [reply] of the handle, [drv_gem_bo_destroy] returns the answer for the
    last distinct handle that was refused, and 0 with nothing printed when
    no handle of the buffer object is refused. *)
Theorem drv_gem_bo_destroy_result (reply : Z -> Z) b d :
  (forall h k, (drmIoctl (DRM_IOCTL_GEM_CLOSE h) k).1.1 = reply h) ->
  (num_planes b <= length (handles b))%nat ->
  exists d',
    let released := first_occurrences [] (plane_handles b) in
    destroy b d = Returned (last_error (reply <$> released)) d' /\
    dev_ioctls d'
    = dev_ioctls d ++ ((fun h => (DRM_IOCTL_GEM_CLOSE h, reply h)) <$> released) /\
    ((forall h, h ∈ plane_handles b -> reply h = 0) ->
     destroy b d = Returned 0 d' /\ dev_stderr d' = dev_stderr d).
Proof.
  intros Hreply Hlen.
  destruct (destroy_planes_replies reply b (num_planes b) 0 0 d Hreply Hlen)
    as (d' & Hrun & Hio & Herr).
  cbn zeta in *. rewrite take_0, drop_0 in Hrun, Hio, Herr.
  fold (plane_handles b) in Hrun, Hio, Herr.
  exists d'. cbn zeta. unfold drv_gem_bo_destroy, last_error.
  split; [exact Hrun|]. split; [exact Hio|].
  intros Hok.
  assert (Hall : forall h, h ∈ first_occurrences [] (plane_handles b) ->
                   reply h = 0).
  { intros h Hin. apply Hok. now apply first_occurrences_elem_of in Hin as [? _]. }
  pose proof (errors_none reply _ Hall) as Herrors.
  pose proof (close_failures_none reply _ Hall) as Hquiet.
  rewrite Hrun, Herr, Herrors, Hquiet, app_nil_r. done.
Qed.

(** X13.  [drv_gem_bo_destroy] never issues more requests than the buffer
    object has planes, and it issues one per plane, in plane order, exactly
    when the handles of the planes are pairwise distinct. *)
Theorem drv_gem_bo_destroy_request_count b d :
  (num_planes b <= length (handles b))%nat ->
  exists r d' answered,
    destroy b d = Returned r d' /\
    dev_ioctls d' = dev_ioctls d ++ answered /\
    (length answered <= num_planes b)%nat /\
    (NoDup (plane_handles b) <->
     answered.*1 = DRM_IOCTL_GEM_CLOSE <$> plane_handles b).
Proof.
  intros Hlen.
  destruct (drv_gem_bo_destroy_spec kernel drmIoctl b d Hlen)
    as (answered & d' & Hrun & Hio & Hreq & _).
  exists (last_error answered.*2), d', answered.
  split_and!; try assumption.
  - rewrite <- (length_fmap fst answered), Hreq, length_fmap.
    etransitivity; [apply first_occurrences_length|].
    unfold plane_handles. rewrite length_take. lia.
  - rewrite Hreq. split.
    + intros Hnd. rewrite first_occurrences_NoDup_id; [reflexivity|exact Hnd|].
      intros x _. apply not_elem_of_nil.
    + intros Heq.
      assert (Hinj : Inj (=) (=) DRM_IOCTL_GEM_CLOSE) by (intros x y; congruence).
      apply (inj (fmap DRM_IOCTL_GEM_CLOSE)) in Heq.
      rewrite <- Heq. apply first_occurrences_NoDup.
Qed.

(** X14.  When every plane of the buffer object carries the same handle,
    [drv_gem_bo_destroy] issues a single request, for that handle, and
    returns what that request returned. *)
Theorem drv_gem_bo_destroy_single_handle b d h :
  (1 <= num_planes b <= length (handles b))%nat ->
  (forall x, x ∈ plane_handles b -> x = h) ->
  exists ret d',
    destroy b d = Returned ret d' /\
    dev_ioctls d' = dev_ioctls d ++ [(DRM_IOCTL_GEM_CLOSE h, ret)].
Proof.
  intros Hlen Hall.
  destruct (drv_gem_bo_destroy_spec kernel drmIoctl b d ltac:(lia))
    as (answered & d' & Hrun & Hio & Hreq & _).
  assert (Hreleased : first_occurrences [] (plane_handles b) = [h]).
  { unfold plane_handles in *.
    destruct (lookup_lt_is_Some_2 (handles b) 0 ltac:(lia)) as [x Hx].
    destruct (num_planes b) as [|n] eqn:Hn; [lia|].
    destruct (handles b) as [|y l]; [discriminate|].
    cbn in Hx. injection Hx as ->. cbn [take first_occurrences] in *.
    rewrite bool_decide_eq_false_2 by apply not_elem_of_nil.
    assert (x = h) as -> by (apply Hall, elem_of_cons; now left).
    f_equal. apply first_occurrences_seen.
    intros z Hz. cbn. apply list_elem_of_singleton.
    apply Hall, elem_of_cons. now right. }
  rewrite Hreleased in Hreq.
  destruct answered as [|[req ret] [|? ?]]; try discriminate Hreq.
  cbn in Hreq. injection Hreq as ->.
  exists ret, d'. split; [|exact Hio].
  rewrite Hrun. f_equal. unfold last_error, errors. cbn.
  case_decide as Hz; cbn; [reflexivity|].
  destruct (decide (ret = 0)); [congruence|contradiction].
Qed.

End DestroyMoreFacts.

(** X12 on planes [[5, 5, 9]] with a kernel that refuses handle 9. *)
Lemma drv_gem_bo_destroy_result_witness :
  let reply := fun h : Z => if bool_decide (h ∈ [9]) then - h else 0 in
  (forall h (k : unit),
     (fake_ioctl [9] (DRM_IOCTL_GEM_CLOSE h) k).1.1 = reply h) /\
  (num_planes bo_shared <= length (handles bo_shared))%nat /\
  exists d',
    drv_gem_bo_destroy unit (fake_ioctl [9]) bo_shared fake_device
    = Returned (last_error (reply <$> first_occurrences [] (plane_handles bo_shared)))
        d' /\
    last_error (reply <$> first_occurrences [] (plane_handles bo_shared)) = -9.
Proof.
  intros reply.
  assert (Hreply : forall h (k : unit),
            (fake_ioctl [9] (DRM_IOCTL_GEM_CLOSE h) k).1.1 = reply h)
    by (intros h k; reflexivity).
  assert (Hlen : (num_planes bo_shared <= length (handles bo_shared))%nat)
    by (cbn; lia).
  split; [exact Hreply|]. split; [exact Hlen|].
  destruct (drv_gem_bo_destroy_result unit (fake_ioctl [9]) reply bo_shared
              fake_device Hreply Hlen) as (d' & Hrun & _).
  exists d'. split; [exact Hrun|]. vm_compute. reflexivity.
Defined.

(** X13 on planes [[5, 5, 9]]: two requests for three planes. *)
Lemma drv_gem_bo_destroy_request_count_witness :
  (num_planes bo_shared <= length (handles bo_shared))%nat /\
  exists r d' answered,
    drv_gem_bo_destroy unit (fake_ioctl []) bo_shared fake_device
    = Returned r d' /\
    dev_ioctls d' = dev_ioctls fake_device ++ answered /\
    (length answered <= num_planes bo_shared)%nat.
Proof.
  assert (Hlen : (num_planes bo_shared <= length (handles bo_shared))%nat)
    by (cbn; lia).
  split; [exact Hlen|].
  destruct (drv_gem_bo_destroy_request_count unit (fake_ioctl []) bo_shared
              fake_device Hlen) as (r & d' & answered & Hrun & Hio & Hcount & _).
  exists r, d', answered. split; [exact Hrun|]. split; assumption.
Defined.

(** X14 on three planes that all carry handle 0. *)
Lemma drv_gem_bo_destroy_single_handle_witness :
  (1 <= num_planes (bo_zero 3) <= length (handles (bo_zero 3)))%nat /\
  (forall x, x ∈ plane_handles (bo_zero 3) -> x = 0) /\
  exists ret d',
    drv_gem_bo_destroy unit (fake_ioctl [0]) (bo_zero 3) fake_device
    = Returned ret d' /\
    dev_ioctls d' = dev_ioctls fake_device ++ [(DRM_IOCTL_GEM_CLOSE 0, ret)].
Proof.
  assert (Hlen : (1 <= num_planes (bo_zero 3)
                  <= length (handles (bo_zero 3)))%nat) by (cbn; lia).
  assert (Hall : forall x, x ∈ plane_handles (bo_zero 3) -> x = 0).
  { intros x Hx. cbn in Hx. rewrite !elem_of_cons, elem_of_nil in Hx.
    destruct Hx as [?|[?|[?|[]]]]; assumption. }
  split; [exact Hlen|]. split; [exact Hall|].
  exact (drv_gem_bo_destroy_single_handle unit (fake_ioctl [0]) (bo_zero 3)
           fake_device 0 Hlen Hall).
Defined.

(** ** More on mapping a plane *)

Lemma shared_sizes_member hs : forall ss i h s,
  hs !! i = Some h -> ss !! i = Some s -> s ∈ shared_sizes hs ss h.
Proof.
  unfold shared_sizes.
  induction hs as [|x hs IH]; intros ss i h s Hh Hs; [discriminate|].
  destruct ss as [|y ss]; [discriminate|]. cbn [zip_with].
  destruct i as [|i].
  - cbn in Hh, Hs. injection Hh as ->. injection Hs as ->.
    rewrite filter_cons_True by reflexivity. cbn. apply elem_of_cons. now left.
  - cbn in Hh, Hs. specialize (IH ss i h s Hh Hs).
    rewrite filter_cons. case_decide; cbn; [apply elem_of_cons; right|];
      exact IH.
Qed.

Lemma sum_list_member l s :
  Forall (fun x => 0 <= x) l -> s ∈ l -> s <= sum_list l.
Proof.
  unfold sum_list. induction 1 as [|x l Hx Hall IH]; intros Hin.
  - now apply elem_of_nil in Hin.
  - cbn. apply elem_of_cons in Hin as [->|Hin].
    + pose proof (sum_list_nonneg l Hall) as Hs. unfold sum_list in Hs. lia.
    + specialize (IH Hin). lia.
Qed.

Lemma shared_sizes_none hs : forall ss h,
  h ∉ hs -> shared_sizes hs ss h = [].
Proof.
  unfold shared_sizes.
  induction hs as [|x hs IH]; intros ss h Hnin; [reflexivity|].
  destruct ss as [|y ss]; [reflexivity|]. cbn [zip_with].
  rewrite not_elem_of_cons in Hnin. destruct Hnin as [Hne Hnin].
  rewrite filter_cons_False by (cbn; congruence).
  now apply IH.
Qed.

Section MapMoreFacts.

Variable kernel : Type.
Variable drmIoctl : ioctl_request -> kernel -> Z * Z * kernel.
Variable mmap : Z -> Z -> kernel -> Z * kernel.
Variable size_bits : Z.

Local Abbreviation map_plane := (drv_dumb_bo_map kernel drmIoctl mmap size_bits).

(** The accumulation looks at [plane] only through its handle. *)
Lemma dumb_bo_map_length_handle b p q count : forall i len,
  handles b !! p = handles b !! q ->
  dumb_bo_map_length size_bits b p count i len
  = dumb_bo_map_length size_bits b q count i len.
Proof.
  induction count as [|count IH]; intros i len Hpq; [reflexivity|].
  cbn [dumb_bo_map_length]. rewrite Hpq.
  destruct (handles b !! i) as [hi|]; [|reflexivity].
  destruct (handles b !! q) as [hq|]; [|reflexivity].
  destruct (hi =? hq); [destruct (sizes b !! i)|]; try reflexivity;
    now apply IH.
Qed.

(** Planes that do not carry the handle leave the length alone. *)
Lemma dumb_bo_map_length_no_match b plane h count : forall i len,
  handles b !! plane = Some h ->
  (i + count <= length (handles b))%nat ->
  h ∉ take count (drop i (handles b)) ->
  dumb_bo_map_length size_bits b plane count i len = Some len.
Proof.
  induction count as [|count IH]; intros i len Hh Hlen Hnin; [reflexivity|].
  cbn [dumb_bo_map_length].
  destruct (lookup_lt_is_Some_2 (handles b) i ltac:(lia)) as [hi Hhi].
  rewrite Hhi, Hh. rewrite (drop_S _ _ _ Hhi) in Hnin. cbn [take] in Hnin.
  rewrite not_elem_of_cons in Hnin. destruct Hnin as [Hne Hnin].
  destruct (Z.eqb_spec hi h) as [->|_]; [contradiction|].
  apply IH; [exact Hh|lia|exact Hnin].
Qed.

(** X15.  When the describe request fails, [drv_dumb_bo_map] returns
    [MAP_FAILED] after printing one line: [*data] is as it was and nothing
    is mapped (the kernel is in the state the failed request left). *)
Theorem drv_dumb_bo_map_describe_fails b data plane h d :
  handles b !! plane = Some h ->
  (drmIoctl (DRM_IOCTL_MODE_MAP_DUMB h) (dev_kernel d)).1.1 <> 0 ->
  exists ret d',
    map_plane b data plane d = Returned (MAP_FAILED, data) d' /\
    dev_kernel d' = (drmIoctl (DRM_IOCTL_MODE_MAP_DUMB h) (dev_kernel d)).2 /\
    dev_ioctls d' = dev_ioctls d ++ [(DRM_IOCTL_MODE_MAP_DUMB h, ret)] /\
    ret <> 0 /\
    dev_stderr d' = dev_stderr d ++ [MODE_MAP_DUMB_failed].
Proof.
  intros Hh Hfail. unfold drv_dumb_bo_map.
  rewrite (bind_Returned _ _ d h d) by (now rewrite Hh).
  unfold bind at 1, issue.
  destruct (drmIoctl (DRM_IOCTL_MODE_MAP_DUMB h) (dev_kernel d))
    as [[ret offset] k].
  cbn in Hfail. cbn [fst snd].
  destruct (Z.eqb_spec ret 0) as [|Hne]; [contradiction|]. cbn [negb].
  eexists ret, _. split; [reflexivity|]. cbn. done.
Qed.

(** X16.  Two planes that carry the same handle are mapped by the same
    call: the request, the length and the result do not depend on which of
    the two indices is given. *)
Theorem drv_dumb_bo_map_same_handle b data p q d :
  handles b !! p = handles b !! q ->
  drv_dumb_bo_map kernel drmIoctl mmap size_bits b data p d
  = drv_dumb_bo_map kernel drmIoctl mmap size_bits b data q d.
Proof.
  intros Hpq. unfold drv_dumb_bo_map.
  rewrite (dumb_bo_map_length_handle b p q _ _ _ Hpq). now rewrite Hpq.
Qed.

(** X17.  After a successful call on a zeroed [*data], the length covers
    the plane that was asked for: it is at least the size of that plane
    (sizes being unsigned and their sum fitting a [size_t]). *)
Theorem drv_dumb_bo_map_covers_plane b data plane h s d :
  (plane < num_planes b)%nat ->
  handles b !! plane = Some h ->
  sizes b !! plane = Some s ->
  (num_planes b <= length (handles b))%nat ->
  (num_planes b <= length (sizes b))%nat ->
  Forall (fun x => 0 <= x) (sizes b) ->
  map_info_length data = 0 ->
  shared_bytes b h < 2 ^ size_bits ->
  (drmIoctl (DRM_IOCTL_MODE_MAP_DUMB h) (dev_kernel d)).1.1 = 0 ->
  exists addr data' d',
    map_plane b data plane d = Returned (addr, data') d' /\
    s <= map_info_length data'.
Proof.
  intros Hp Hh Hs Lh Ls Hpos Hzero Hfit Hok.
  pose proof (shared_bytes_nonneg b h Hpos) as Hsum.
  destruct (drv_dumb_bo_map_spec kernel drmIoctl mmap size_bits b data plane h d
              Hh Lh Ls ltac:(lia))
    as (ret & offset & k & Hio & Hcall).
  rewrite Hio in Hok. cbn in Hok. subst ret. cbn in Hcall.
  rewrite Hzero, Z.add_0_l, wrap_small in Hcall by lia.
  eexists _, _, _. split; [exact Hcall|]. cbn [map_info_length].
  unfold shared_bytes. apply sum_list_member.
  - apply shared_sizes_Forall, Hpos.
  - apply (shared_sizes_member _ _ plane); [|exact Hs].
    unfold plane_handles. now rewrite lookup_take_lt.
Qed.

(** X18.  A plane index at or past the plane count whose handle no plane
    of the buffer object carries adds nothing: after a successful describe
    request [*data] is as it was, and that length is what is mapped. *)
Theorem drv_dumb_bo_map_unshared_handle b data plane h d :
  handles b !! plane = Some h ->
  (num_planes b <= length (handles b))%nat ->
  h ∉ plane_handles b ->
  (drmIoctl (DRM_IOCTL_MODE_MAP_DUMB h) (dev_kernel d)).1.1 = 0 ->
  exists addr d',
    map_plane b data plane d = Returned (addr, data) d' /\
    addr = (mmap (map_info_length data)
              (drmIoctl (DRM_IOCTL_MODE_MAP_DUMB h) (dev_kernel d)).1.2
              (drmIoctl (DRM_IOCTL_MODE_MAP_DUMB h) (dev_kernel d)).2).1.
Proof.
  intros Hh Lh Hnin Hok. unfold drv_dumb_bo_map.
  rewrite (bind_Returned _ _ d h d) by (now rewrite Hh).
  unfold bind at 1, issue.
  destruct (drmIoctl (DRM_IOCTL_MODE_MAP_DUMB h) (dev_kernel d))
    as [[ret offset] k].
  cbn in Hok. subst ret. cbn [fst snd Z.eqb negb].
  rewrite (dumb_bo_map_length_no_match b plane h) by
    (try assumption; try lia; now rewrite drop_0).
  unfold bind, defined, pure, call_mmap. cbn [dev_kernel].
  destruct (mmap (map_info_length data) offset k) as [addr k'].
  eexists _, _. split; [|reflexivity]. now destruct data.
Qed.

End MapMoreFacts.

(** X15 on plane 0 of the planes [[5, 5, 9]] with a kernel that refuses
    handle 5. *)
Lemma drv_dumb_bo_map_describe_fails_witness :
  handles bo_shared !! 0%nat = Some 5 /\
  (fake_ioctl [5] (DRM_IOCTL_MODE_MAP_DUMB 5) (dev_kernel fake_device)).1.1 <> 0 /\
  exists ret d',
    drv_dumb_bo_map unit (fake_ioctl [5]) fake_mmap 64 bo_shared
      (mk_map_info 0) 0 fake_device
    = Returned (MAP_FAILED, mk_map_info 0) d' /\
    dev_ioctls d' = dev_ioctls fake_device ++ [(DRM_IOCTL_MODE_MAP_DUMB 5, ret)] /\
    dev_stderr d' = dev_stderr fake_device ++ [MODE_MAP_DUMB_failed].
Proof.
  assert (Hh : handles bo_shared !! 0%nat = Some 5) by reflexivity.
  assert (Hfail : (fake_ioctl [5] (DRM_IOCTL_MODE_MAP_DUMB 5)
                     (dev_kernel fake_device)).1.1 <> 0)
    by (vm_compute; discriminate).
  split; [exact Hh|]. split; [exact Hfail|].
  destruct (drv_dumb_bo_map_describe_fails unit (fake_ioctl [5]) fake_mmap 64
              bo_shared (mk_map_info 0) 0 5 fake_device Hh Hfail)
    as (ret & d' & Hrun & _ & Hio & _ & Herr).
  exists ret, d'. split; [exact Hrun|]. split; assumption.
Defined.

(** X16 on planes 0 and 1 of the planes [[5, 5, 9]]. *)
Lemma drv_dumb_bo_map_same_handle_witness :
  handles bo_shared !! 0%nat = handles bo_shared !! 1%nat /\
  drv_dumb_bo_map unit (fake_ioctl []) fake_mmap 64 bo_shared
    (mk_map_info 0) 0 fake_device
  = drv_dumb_bo_map unit (fake_ioctl []) fake_mmap 64 bo_shared
      (mk_map_info 0) 1 fake_device.
Proof.
  assert (Hpq : handles bo_shared !! 0%nat = handles bo_shared !! 1%nat)
    by reflexivity.
  split; [exact Hpq|].
  exact (drv_dumb_bo_map_same_handle unit (fake_ioctl []) fake_mmap 64
           bo_shared (mk_map_info 0) 0 1 fake_device Hpq).
Defined.

(** X17 on plane 1 (8 bytes) of the planes [[5, 5, 9]]. *)
Lemma drv_dumb_bo_map_covers_plane_witness :
  (1 < num_planes bo_shared)%nat /\
  handles bo_shared !! 1%nat = Some 5 /\
  sizes bo_shared !! 1%nat = Some 8 /\
  (num_planes bo_shared <= length (handles bo_shared))%nat /\
  (num_planes bo_shared <= length (sizes bo_shared))%nat /\
  Forall (fun x => 0 <= x) (sizes bo_shared) /\
  map_info_length (mk_map_info 0) = 0 /\
  shared_bytes bo_shared 5 < 2 ^ 64 /\
  (fake_ioctl [] (DRM_IOCTL_MODE_MAP_DUMB 5) (dev_kernel fake_device)).1.1 = 0 /\
  exists addr data' d',
    drv_dumb_bo_map unit (fake_ioctl []) fake_mmap 64 bo_shared
      (mk_map_info 0) 1 fake_device = Returned (addr, data') d' /\
    8 <= map_info_length data'.
Proof.
  assert (H0 : (1 < num_planes bo_shared)%nat) by (cbn; lia).
  assert (H1 : handles bo_shared !! 1%nat = Some 5) by reflexivity.
  assert (H2 : sizes bo_shared !! 1%nat = Some 8) by reflexivity.
  assert (H3 : (num_planes bo_shared <= length (handles bo_shared))%nat)
    by (cbn; lia).
  assert (H4 : (num_planes bo_shared <= length (sizes bo_shared))%nat)
    by (cbn; lia).
  assert (H5 : Forall (fun x => 0 <= x) (sizes bo_shared))
    by (repeat constructor; lia).
  assert (H6 : map_info_length (mk_map_info 0) = 0) by reflexivity.
  assert (H7 : shared_bytes bo_shared 5 < 2 ^ 64) by (vm_compute; reflexivity).
  assert (H8 : (fake_ioctl [] (DRM_IOCTL_MODE_MAP_DUMB 5)
                  (dev_kernel fake_device)).1.1 = 0) by reflexivity.
  repeat (split; [assumption|]).
  exact (drv_dumb_bo_map_covers_plane unit (fake_ioctl []) fake_mmap 64
           bo_shared (mk_map_info 0) 1 5 8 fake_device
           H0 H1 H2 H3 H4 H5 H6 H7 H8).
Defined.

(** X18 on index 3 of a buffer object of the three planes [[5, 5, 9]]:
    the fourth entry of the handle array holds 0. *)
Lemma drv_dumb_bo_map_unshared_handle_witness :
  handles bo_shared !! 3%nat = Some 0 /\
  (num_planes bo_shared <= length (handles bo_shared))%nat /\
  (0 ∉ plane_handles bo_shared) /\
  (fake_ioctl [] (DRM_IOCTL_MODE_MAP_DUMB 0) (dev_kernel fake_device)).1.1 = 0 /\
  exists addr d',
    drv_dumb_bo_map unit (fake_ioctl []) fake_mmap 64 bo_shared
      (mk_map_info 0) 3 fake_device = Returned (addr, mk_map_info 0) d'.
Proof.
  assert (H1 : handles bo_shared !! 3%nat = Some 0) by reflexivity.
  assert (H2 : (num_planes bo_shared <= length (handles bo_shared))%nat)
    by (cbn; lia).
  assert (H3 : 0 ∉ plane_handles bo_shared).
  { cbn. rewrite !not_elem_of_cons. split_and!; try lia. apply not_elem_of_nil. }
  assert (H4 : (fake_ioctl [] (DRM_IOCTL_MODE_MAP_DUMB 0)
                  (dev_kernel fake_device)).1.1 = 0) by reflexivity.
  repeat (split; [assumption|]).
  destruct (drv_dumb_bo_map_unshared_handle unit (fake_ioctl []) fake_mmap 64
              bo_shared (mk_map_info 0) 3 0 fake_device H1 H2 H3 H4)
    as (addr & d' & Hrun & _).
  exists addr, d'. exact Hrun.
Defined.

(** ** More on reference counts *)

Section RefCountMoreFacts.

Variable uintptr_bits : Z.
Hypothesis uintptr_bits_pos : 0 < uintptr_bits.

Local Abbreviation get := (drv_get_reference_count uintptr_bits).
Local Abbreviation increment := (drv_increment_reference_count uintptr_bits).
Local Abbreviation decrement := (drv_decrement_reference_count uintptr_bits).
Local Abbreviation count := (count_of uintptr_bits).
Local Abbreviation uintptr_t := (uintptr uintptr_bits).
Local Abbreviation MAX := (UINTPTR_MAX uintptr_bits).

Lemma count_range drv h : 0 <= count drv h <= MAX.
Proof.
  unfold count_of, UINTPTR_MAX, uintptr.
  assert (0 < 2 ^ uintptr_bits) by (apply Z.pow_pos_nonneg; lia).
  destruct (buffer_table drv !! h) as [c|]; [|lia].
  pose proof (wrap_range uintptr_bits c ltac:(lia)). lia.
Qed.

Lemma uintptr_small x : 0 <= x <= MAX -> uintptr_t x = x.
Proof. intros H. apply wrap_small. unfold UINTPTR_MAX in H. lia. Qed.

(** The counts after an increment. *)
Lemma increment_counts b plane h drv :
  handles b !! plane = Some h ->
  count drv h < MAX ->
  exists drv',
    increment b plane drv = Returned tt drv' /\
    count drv' h = count drv h + 1 /\
    (forall k, k <> h -> count drv' k = count drv k).
Proof.
  intros Hh Hlt. pose proof (count_range drv h) as Hr.
  eexists. split; [apply increment_Returned; exact Hh|].
  rewrite count_insert_eq. split.
  - rewrite (uintptr_small (count drv h + 1)) by lia.
    apply uintptr_small. lia.
  - intros k Hne. rewrite count_insert_ne by exact Hne. now destruct drv.
Qed.

(** The counts after a decrement. *)
Lemma decrement_counts b plane h drv :
  handles b !! plane = Some h ->
  exists drv',
    decrement b plane drv = Returned tt drv' /\
    count drv' h = Z.max 0 (count drv h - 1) /\
    (forall k, k <> h -> count drv' k = count drv k).
Proof.
  intros Hh. pose proof (count_range drv h) as Hr.
  eexists. split; [apply decrement_Returned; exact Hh|].
  destruct (Z.ltb_spec 0 (count drv h)) as [Hpos|Hzero].
  - rewrite count_insert_eq. split.
    + rewrite (uintptr_small (count drv h - 1)) by lia.
      rewrite uintptr_small by lia. lia.
    + intros k Hne. rewrite count_insert_ne by exact Hne. now destruct drv.
  - rewrite count_delete_eq. split; [lia|].
    intros k Hne. rewrite count_delete_ne by exact Hne. now destruct drv.
Qed.

(** X19.  A decrement takes back an increment: after the two, every
    handle has the count it had, provided the count of the handle was below
    [UINTPTR_MAX]. *)
Theorem increment_then_decrement b plane h drv :
  handles b !! plane = Some h ->
  count drv h < UINTPTR_MAX uintptr_bits ->
  exists drv',
    (drv_increment_reference_count uintptr_bits b plane ;;
     drv_decrement_reference_count uintptr_bits b plane) drv
    = Returned tt drv' /\
    (forall k, count drv' k = count drv k).
Proof.
  intros Hh Hlt. pose proof (count_range drv h) as Hr.
  destruct (increment_counts b plane h drv Hh Hlt) as (d1 & Hinc & Hc1 & Ho1).
  destruct (decrement_counts b plane h d1 Hh) as (d2 & Hdec & Hc2 & Ho2).
  exists d2. split.
  - now rewrite (bind_Returned _ _ _ _ _ Hinc).
  - intros k. destruct (decide (k = h)) as [->|Hne].
    + rewrite Hc2, Hc1. lia.
    + now rewrite Ho2, Ho1.
Qed.

(** X20.  A decrement lowers a count that is not 0 by exactly one,
    returns, and leaves the counts of the other handles alone. *)
Theorem drv_decrement_reference_count_subtracts_one b plane h drv :
  handles b !! plane = Some h ->
  0 < count drv h ->
  exists drv',
    drv_decrement_reference_count uintptr_bits b plane drv = Returned tt drv' /\
    drv_get_reference_count uintptr_bits b plane drv'
    = Returned (count drv h - 1) drv' /\
    (forall k, k <> h -> count drv' k = count drv k).
Proof.
  intros Hh Hpos.
  destruct (decrement_counts b plane h drv Hh) as (d1 & Hdec & Hc & Ho).
  exists d1. split; [exact Hdec|]. split; [|exact Ho].
  rewrite (get_Returned uintptr_bits b plane h) by exact Hh.
  f_equal. lia.
Qed.

(** X21.  [n] increments in a row add [n] to the count of the handle, as
    long as the result stays within a [uintptr_t], and leave the other
    counts alone. *)
Theorem increments_add (n : nat) b plane h : forall drv,
  handles b !! plane = Some h ->
  count drv h + Z.of_nat n <= MAX ->
  exists drv',
    times n (increment b plane) drv = Returned tt drv' /\
    count drv' h = count drv h + Z.of_nat n /\
    (forall k, k <> h -> count drv' k = count drv k).
Proof.
  induction n as [|n IH]; intros drv Hh Hfit.
  - exists drv. split; [reflexivity|]. split; [lia|reflexivity].
  - destruct (increment_counts b plane h drv Hh ltac:(lia))
      as (d1 & Hinc & Hc1 & Ho1).
    destruct (IH d1 Hh ltac:(lia)) as (d2 & Hrun & Hc2 & Ho2).
    exists d2. cbn [times]. rewrite (bind_Returned _ _ _ _ _ Hinc).
    split; [exact Hrun|]. split; [lia|].
    intros k Hne. now rewrite Ho2, Ho1.
Qed.

(** X22.  [n] decrements in a row lower the count of the handle by [n]
    and stop at 0: the count is never negative, however many decrements
    there are. *)
Theorem decrements_floor (n : nat) b plane h : forall drv,
  handles b !! plane = Some h ->
  exists drv',
    times n (decrement b plane) drv = Returned tt drv' /\
    count drv' h = Z.max 0 (count drv h - Z.of_nat n) /\
    (forall k, k <> h -> count drv' k = count drv k).
Proof.
  induction n as [|n IH]; intros drv Hh.
  - exists drv. pose proof (count_range drv h).
    split; [reflexivity|]. split; [lia|reflexivity].
  - destruct (decrement_counts b plane h drv Hh) as (d1 & Hdec & Hc1 & Ho1).
    destruct (IH d1 Hh) as (d2 & Hrun & Hc2 & Ho2).
    exists d2. cbn [times]. rewrite (bind_Returned _ _ _ _ _ Hdec).
    split; [exact Hrun|]. split; [lia|].
    intros k Hne. now rewrite Ho2, Ho1.
Qed.

(** X23.  Counts of different handles do not interfere: an increment of
    one handle and an increment or a decrement of another leave the same
    table in either order. *)
Theorem reference_counts_commute b p1 p2 h1 h2 drv :
  handles b !! p1 = Some h1 ->
  handles b !! p2 = Some h2 ->
  h1 <> h2 ->
  (drv_increment_reference_count uintptr_bits b p1 ;;
   drv_increment_reference_count uintptr_bits b p2) drv
  = (drv_increment_reference_count uintptr_bits b p2 ;;
     drv_increment_reference_count uintptr_bits b p1) drv /\
  (drv_increment_reference_count uintptr_bits b p1 ;;
   drv_decrement_reference_count uintptr_bits b p2) drv
  = (drv_decrement_reference_count uintptr_bits b p2 ;;
     drv_increment_reference_count uintptr_bits b p1) drv.
Proof.
  intros H1 H2 Hne.
  assert (Hc12 : forall v, count (mk_driver (<[h1 := v]> (buffer_table drv))) h2
                           = count drv h2).
  { intros v. rewrite count_insert_ne by congruence. now destruct drv. }
  assert (Hc21 : forall v, count (mk_driver (<[h2 := v]> (buffer_table drv))) h1
                           = count drv h1).
  { intros v. rewrite count_insert_ne by congruence. now destruct drv. }
  assert (Hcd : count (mk_driver (delete h2 (buffer_table drv))) h1
                = count drv h1).
  { rewrite count_delete_ne by congruence. now destruct drv. }
  split.
  - rewrite (bind_Returned _ _ _ _ _ (increment_Returned uintptr_bits b p1 h1 drv H1)).
    rewrite (bind_Returned _ _ _ _ _ (increment_Returned uintptr_bits b p2 h2 drv H2)).
    rewrite !(increment_Returned uintptr_bits b p2 h2) by exact H2.
    rewrite !(increment_Returned uintptr_bits b p1 h1) by exact H1.
    cbn [buffer_table]. rewrite Hc12, Hc21.
    do 2 f_equal. apply insert_insert_ne. congruence.
  - rewrite (bind_Returned _ _ _ _ _ (increment_Returned uintptr_bits b p1 h1 drv H1)).
    rewrite (bind_Returned _ _ _ _ _ (decrement_Returned uintptr_bits b p2 h2 drv H2)).
    rewrite (decrement_Returned uintptr_bits b p2 h2) by exact H2.
    rewrite (increment_Returned uintptr_bits b p1 h1) by exact H1.
    rewrite Hc12. destruct (0 <? count drv h2); cbn [buffer_table].
    + rewrite Hc21. do 2 f_equal. apply insert_insert_ne. congruence.
    + rewrite Hcd. do 2 f_equal. apply delete_insert_ne. congruence.
Qed.

End RefCountMoreFacts.

(** X19 on handle 5 with a 64-bit [uintptr_t] and count 2. *)
Lemma increment_then_decrement_witness :
  let drv := mk_driver {[5 := 2]} in
  0 < 64 /\
  handles bo_shared !! 0%nat = Some 5 /\
  count_of 64 drv 5 < UINTPTR_MAX 64 /\
  exists drv',
    (drv_increment_reference_count 64 bo_shared 0 ;;
     drv_decrement_reference_count 64 bo_shared 0) drv = Returned tt drv' /\
    (forall k, count_of 64 drv' k = count_of 64 drv k).
Proof.
  intros drv.
  assert (Hbits : 0 < 64) by lia.
  assert (Hh : handles bo_shared !! 0%nat = Some 5) by reflexivity.
  assert (Hlt : count_of 64 drv 5 < UINTPTR_MAX 64) by (vm_compute; reflexivity).
  repeat (split; [assumption|]).
  exact (increment_then_decrement 64 Hbits bo_shared 0 5 drv Hh Hlt).
Defined.

(** X20 on handle 5 with a 64-bit [uintptr_t] and count 2. *)
Lemma drv_decrement_reference_count_subtracts_one_witness :
  let drv := mk_driver {[5 := 2]} in
  0 < 64 /\
  handles bo_shared !! 0%nat = Some 5 /\
  0 < count_of 64 drv 5 /\
  exists drv',
    drv_decrement_reference_count 64 bo_shared 0 drv = Returned tt drv' /\
    drv_get_reference_count 64 bo_shared 0 drv' = Returned 1 drv'.
Proof.
  intros drv.
  assert (Hbits : 0 < 64) by lia.
  assert (Hh : handles bo_shared !! 0%nat = Some 5) by reflexivity.
  assert (Hpos : 0 < count_of 64 drv 5) by (vm_compute; reflexivity).
  repeat (split; [assumption|]).
  destruct (drv_decrement_reference_count_subtracts_one 64 Hbits bo_shared 0 5
              drv Hh Hpos) as (drv' & Hdec & Hget & _).
  exists drv'. split; [exact Hdec|exact Hget].
Defined.

(** X21: three increments from the empty table, 64-bit [uintptr_t]. *)
Lemma increments_add_witness :
  0 < 64 /\
  handles bo_shared !! 0%nat = Some 5 /\
  count_of 64 empty_table 5 + Z.of_nat 3 <= UINTPTR_MAX 64 /\
  exists drv',
    times 3 (drv_increment_reference_count 64 bo_shared 0) empty_table
    = Returned tt drv' /\
    count_of 64 drv' 5 = count_of 64 empty_table 5 + Z.of_nat 3.
Proof.
  assert (Hbits : 0 < 64) by lia.
  assert (Hh : handles bo_shared !! 0%nat = Some 5) by reflexivity.
  assert (Hfit : count_of 64 empty_table 5 + Z.of_nat 3 <= UINTPTR_MAX 64)
    by (vm_compute; discriminate).
  repeat (split; [assumption|]).
  destruct (increments_add 64 Hbits 3 bo_shared 0 5 empty_table Hh Hfit)
    as (drv' & Hrun & Hc & _).
  exists drv'. split; assumption.
Defined.

(** X22: five decrements of a count of 2, 64-bit [uintptr_t]. *)
Lemma decrements_floor_witness :
  let drv := mk_driver {[5 := 2]} in
  0 < 64 /\
  handles bo_shared !! 0%nat = Some 5 /\
  exists drv',
    times 5 (drv_decrement_reference_count 64 bo_shared 0) drv
    = Returned tt drv' /\
    count_of 64 drv' 5 = Z.max 0 (count_of 64 drv 5 - Z.of_nat 5).
Proof.
  intros drv.
  assert (Hbits : 0 < 64) by lia.
  assert (Hh : handles bo_shared !! 0%nat = Some 5) by reflexivity.
  repeat (split; [assumption|]).
  destruct (decrements_floor 64 Hbits 5 bo_shared 0 5 drv Hh)
    as (drv' & Hrun & Hc & _).
  exists drv'. split; assumption.
Defined.

(** X23 on handles 5 and 9 of the planes [[5, 5, 9]]. *)
Lemma reference_counts_commute_witness :
  let increment := drv_increment_reference_count 64 bo_shared in
  let decrement := drv_decrement_reference_count 64 bo_shared in
  handles bo_shared !! 0%nat = Some 5 /\
  handles bo_shared !! 2%nat = Some 9 /\
  5 <> 9 /\
  (increment 0%nat ;; increment 2%nat) empty_table
  = (increment 2%nat ;; increment 0%nat) empty_table /\
  (increment 0%nat ;; decrement 2%nat) empty_table
  = (decrement 2%nat ;; increment 0%nat) empty_table.
Proof.
  intros increment decrement.
  assert (H1 : handles bo_shared !! 0%nat = Some 5) by reflexivity.
  assert (H2 : handles bo_shared !! 2%nat = Some 9) by reflexivity.
  assert (Hne : 5 <> 9) by discriminate.
  repeat (split; [assumption|]).
  exact (reference_counts_commute 64 bo_shared 0 2 5 9 empty_table H1 H2 Hne).
Defined.

(** ** Dumb buffers *)

Lemma zoom_Returned {St Sub A} (part : St -> Sub) (update : Sub -> St -> St)
    (m : M Sub A) s a sub :
  m (part s) = Returned a sub ->
  zoom part update m s = Returned a (update sub s).
Proof. intros H. unfold zoom. now rewrite H. Qed.

Section DumbFacts.

Variable NDEBUG : bool.
Variable numPlanes : drv_format_t -> nat.
Variable kernel : Type.
Variable drmIoctl : dumb_request -> kernel -> Z * create_dumb_reply * kernel.

Local Abbreviation create :=
  (drv_dumb_bo_create NDEBUG numPlanes kernel drmIoctl).
Local Abbreviation destroy := (drv_dumb_bo_destroy kernel drmIoctl).
Local Abbreviation bpp_of format :=
  (drv_bpp_from_format NDEBUG numPlanes format 0 []).

(** The call up to the answer of the kernel. *)
Lemma drv_dumb_bo_create_spec width height format flags bpp out s :
  NDEBUG || (numPlanes format =? 1)%nat = true ->
  bpp_of format = Returned bpp out ->
  bo_arrays (ds_bo s) ->
  exists ret reply k,
    drmIoctl (DRM_IOCTL_MODE_CREATE_DUMB height width bpp 0) (ds_kernel s)
    = (ret, reply, k) /\
    create width height format flags s
    = if ret =? 0 then
        Returned 0
          (mk_dumb_state (created (ds_bo s) reply) k
             (ds_ioctls s ++ [(DRM_IOCTL_MODE_CREATE_DUMB height width bpp 0, ret)])
             (ds_stderr s ++ (inl <$> out)))
      else
        Returned ret
          (mk_dumb_state (ds_bo s) k
             (ds_ioctls s ++ [(DRM_IOCTL_MODE_CREATE_DUMB height width bpp 0, ret)])
             ((ds_stderr s ++ (inl <$> out)) ++ [inr MODE_CREATE_DUMB_failed])).
Proof.
  intros Hpass Hbpp (Lh & Lo & Ls & Lst).
  destruct (drmIoctl (DRM_IOCTL_MODE_CREATE_DUMB height width bpp 0) (ds_kernel s))
    as [[ret reply] k] eqn:Hio.
  exists ret, reply, k. split; [reflexivity|].
  unfold drv_dumb_bo_create, on_stderr.
  rewrite (bind_Returned _ _ s tt s) by (now apply assert_reporting_passes).
  rewrite (bind_Returned _ _ s bpp _
             (zoom_Returned _ _ _ s bpp out Hbpp)).
  unfold bind at 1, issue_dumb. cbn [ds_kernel ds_bo ds_ioctls ds_stderr].
  rewrite Hio. cbn [fst snd].
  destruct (ret =? 0); cbn [negb]; [|reflexivity].
  unfold DRV_MAX_PLANES in Lh, Lo, Ls, Lst.
  set (b := ds_bo s) in *.
  set (b1 := set_handles (<[0%nat := uint32 (reply_handle reply)]> (handles b)) b).
  set (b2 := set_offsets (<[0%nat := uint32 0]> (offsets b1)) b1).
  set (b3 := set_sizes (<[0%nat := uint32 (reply_size reply)]> (sizes b2)) b2).
  set (b4 := set_total_size (uint32 (reply_size reply)) b3).
  unfold on_bo.
  erewrite bind_Returned
    by (apply zoom_Returned, store_Returned; cbn [ds_bo]; lia).
  cbn [ds_bo ds_kernel ds_ioctls ds_stderr]. fold b1.
  erewrite bind_Returned
    by (apply zoom_Returned, store_Returned; cbn; lia).
  cbn [ds_bo ds_kernel ds_ioctls ds_stderr]. fold b2.
  erewrite bind_Returned
    by (apply zoom_Returned, store_Returned; cbn; lia).
  cbn [ds_bo ds_kernel ds_ioctls ds_stderr]. fold b3.
  erewrite (bind_Returned _ _ _ (uint32 (reply_size reply)))
    by (apply zoom_Returned, load_Returned; cbn;
        apply list_lookup_insert_eq; lia).
  cbn [ds_bo ds_kernel ds_ioctls ds_stderr].
  erewrite bind_Returned by (apply zoom_Returned; reflexivity).
  cbn [ds_bo ds_kernel ds_ioctls ds_stderr]. fold b4.
  erewrite bind_Returned
    by (apply zoom_Returned, store_Returned; cbn; lia).
  reflexivity.
Qed.

(** The bits-per-pixel call of the allocation returns. *)
Lemma bpp_of_returns format :
  NDEBUG || (numPlanes format =? 1)%nat = true ->
  exists bpp out, bpp_of format = Returned bpp out.
Proof.
  intros Hpass.
  assert (Hplane : NDEBUG || (0 <? numPlanes format)%nat = true).
  { destruct NDEBUG; [reflexivity|]. cbn [orb] in *.
    apply Nat.eqb_eq in Hpass. now rewrite Hpass. }
  unfold drv_bpp_from_format.
  rewrite (bind_Returned _ _ [] tt []) by (now apply assert_reporting_passes).
  destruct format; eauto.
Qed.


(** X25.  When the kernel grants the allocation, [drv_dumb_bo_create]
    returns 0 and fills plane 0 from the kernel's answer: its handle, offset
    0, its pitch as the stride and its size, each as a [uint32_t]; the total
    is the size that was stored, so the buffer object is a packed layout of
    one plane.  The plane count and the other planes' entries are as
    before. *)
Theorem drv_dumb_bo_create_succeeds width height format flags bpp out s reply k :
  NDEBUG || (numPlanes format =? 1)%nat = true ->
  bpp_of format = Returned bpp out ->
  bo_arrays (ds_bo s) ->
  drmIoctl (DRM_IOCTL_MODE_CREATE_DUMB height width bpp 0) (ds_kernel s)
  = (0, reply, k) ->
  exists s',
    create width height format flags s = Returned 0 s' /\
    ds_bo s' = created (ds_bo s) reply /\
    handles (ds_bo s') !! 0%nat = Some (uint32 (reply_handle reply)) /\
    strides (ds_bo s') !! 0%nat = Some (uint32 (reply_pitch reply)) /\
    offsets (ds_bo s') !! 0%nat = Some 0 /\
    sizes (ds_bo s') !! 0%nat = Some (total_size (ds_bo s')) /\
    total_size (ds_bo s') = uint32 (reply_size reply) /\
    num_planes (ds_bo s') = num_planes (ds_bo s) /\
    (forall j, (0 < j)%nat ->
       handles (ds_bo s') !! j = handles (ds_bo s) !! j /\
       strides (ds_bo s') !! j = strides (ds_bo s) !! j /\
       offsets (ds_bo s') !! j = offsets (ds_bo s) !! j /\
       sizes (ds_bo s') !! j = sizes (ds_bo s) !! j).
Proof.
  intros Hpass Hbpp Harr Hio.
  destruct (drv_dumb_bo_create_spec width height format flags bpp out s
              Hpass Hbpp Harr) as (ret & reply' & k' & Hio' & Hrun).
  rewrite Hio in Hio'. injection Hio' as <- <- <-. cbn in Hrun.
  destruct Harr as (Lh & Lo & Ls & Lst). unfold DRV_MAX_PLANES in *.
  eexists. split; [exact Hrun|]. cbn [ds_bo].
  unfold created. cbn [handles strides offsets sizes total_size num_planes].
  split_and!; try reflexivity;
    try (apply list_lookup_insert_eq; lia).
  intros j Hj. rewrite !list_lookup_insert_ne by lia. done.
Qed.

(** With assertions active, [drv_dumb_bo_create] stops on a format that
    does not have exactly one plane: the failed assertion writes its line,
    no request is issued and the buffer object is not written. *)
Lemma drv_dumb_bo_create_single_plane_only width height format flags s :
  NDEBUG = false ->
  numPlanes format <> 1%nat ->
  create width height format flags s =
  Aborted (mk_dumb_state (ds_bo s) (ds_kernel s) (ds_ioctls s)
             (ds_stderr s ++ [inl (Assertion_failed assert_one_plane)])).
Proof.
  intros HN Hplanes. unfold drv_dumb_bo_create, bind, assert_reporting.
  rewrite HN. apply Nat.eqb_neq in Hplanes. now rewrite Hplanes.
Qed.

(** X26.  What is allocated is what is released: after a granted
    allocation, [drv_dumb_bo_destroy] issues one release request, for the
    handle the kernel handed out, and returns what that request returned,
    with a printed line when it failed. *)
Theorem drv_dumb_bo_create_then_destroy
    width height format flags bpp out s reply k ret2 reply2 k2 :
  NDEBUG || (numPlanes format =? 1)%nat = true ->
  bpp_of format = Returned bpp out ->
  bo_arrays (ds_bo s) ->
  drmIoctl (DRM_IOCTL_MODE_CREATE_DUMB height width bpp 0) (ds_kernel s)
  = (0, reply, k) ->
  drmIoctl (DRM_IOCTL_MODE_DESTROY_DUMB (uint32 (reply_handle reply))) k
  = (ret2, reply2, k2) ->
  exists s',
    (create width height format flags ;; destroy) s = Returned ret2 s' /\
    ds_bo s' = created (ds_bo s) reply /\
    ds_ioctls s'
    = ds_ioctls s
      ++ [(DRM_IOCTL_MODE_CREATE_DUMB height width bpp 0, 0);
          (DRM_IOCTL_MODE_DESTROY_DUMB (uint32 (reply_handle reply)), ret2)] /\
    ds_stderr s'
    = (ds_stderr s ++ (inl <$> out))
      ++ (if ret2 =? 0 then []
          else [inr (MODE_DESTROY_DUMB_failed (uint32 (reply_handle reply)))]).
Proof.
  intros Hpass Hbpp Harr Hio Hio2.
  destruct (drv_dumb_bo_create_spec width height format flags bpp out s
              Hpass Hbpp Harr) as (ret & reply' & k' & Hio' & Hrun).
  rewrite Hio in Hio'. injection Hio' as <- <- <-. cbn in Hrun.
  rewrite (bind_Returned _ _ _ _ _ Hrun).
  destruct Harr as (Lh & _). unfold DRV_MAX_PLANES in Lh.
  unfold drv_dumb_bo_destroy, on_bo.
  erewrite (bind_Returned _ _ _ (uint32 (reply_handle reply)))
    by (apply zoom_Returned, load_Returned; cbn [ds_bo created handles];
        apply list_lookup_insert_eq; lia).
  cbn [ds_bo ds_kernel ds_ioctls ds_stderr].
  unfold bind at 1, issue_dumb. cbn [ds_kernel ds_bo ds_ioctls ds_stderr].
  rewrite Hio2. cbn [fst snd].
  destruct (Z.eqb_spec ret2 0) as [->|Hne]; cbn [negb].
  - eexists. split; [reflexivity|]. cbn.
    rewrite <- !app_assoc, app_nil_r. done.
  - eexists. split; [reflexivity|]. cbn.
    rewrite <- !app_assoc. done.
Qed.

End DumbFacts.


(** X25 on the reference table: a 32-bit format, 100 x 2, a kernel that
    answers handle 7, pitch 448 and 896 bytes. *)
Lemma drv_dumb_bo_create_succeeds_witness :
  let numPlanes := FormatInfo.drv_num_planes_from_format in
  let s := mk_dumb_state (bo_zero 1) tt [] [] in
  let reply := mk_create_dumb_reply 7 448 896 in
  false || (numPlanes DRV_FORMAT_ARGB8888 =? 1)%nat = true /\
  drv_bpp_from_format false numPlanes DRV_FORMAT_ARGB8888 0 [] = Returned 32 [] /\
  bo_arrays (ds_bo s) /\
  fake_dumb_ioctl true (DRM_IOCTL_MODE_CREATE_DUMB 2 100 32 0) (ds_kernel s)
  = (0, reply, tt) /\
  exists s',
    drv_dumb_bo_create false numPlanes unit (fake_dumb_ioctl true)
      100 2 DRV_FORMAT_ARGB8888 99 s = Returned 0 s' /\
    ds_bo s' = mk_bo 1 [7; 0; 0; 0] [0; 0; 0; 0] [896; 0; 0; 0] [448; 0; 0; 0] 896.
Proof.
  intros numPlanes s reply.
  assert (H1 : false || (numPlanes DRV_FORMAT_ARGB8888 =? 1)%nat = true)
    by reflexivity.
  assert (H2 : drv_bpp_from_format false numPlanes DRV_FORMAT_ARGB8888 0 []
               = Returned 32 []) by reflexivity.
  assert (H3 : bo_arrays (ds_bo s)) by (repeat split).
  assert (H4 : fake_dumb_ioctl true (DRM_IOCTL_MODE_CREATE_DUMB 2 100 32 0)
                 (ds_kernel s) = (0, reply, tt)) by reflexivity.
  repeat (split; [assumption|]).
  destruct (drv_dumb_bo_create_succeeds false numPlanes unit
              (fake_dumb_ioctl true) 100 2 DRV_FORMAT_ARGB8888 99 32 [] s
              reply tt H1 H2 H3 H4) as (s' & Hrun & Hbo & _).
  exists s'. split; [exact Hrun|]. rewrite Hbo. reflexivity.
Defined.

(** X26 on the reference table: allocation, then release of handle 7. *)
Lemma drv_dumb_bo_create_then_destroy_witness :
  let numPlanes := FormatInfo.drv_num_planes_from_format in
  let s := mk_dumb_state (bo_zero 1) tt [] [] in
  let reply := mk_create_dumb_reply 7 448 896 in
  false || (numPlanes DRV_FORMAT_ARGB8888 =? 1)%nat = true /\
  drv_bpp_from_format false numPlanes DRV_FORMAT_ARGB8888 0 [] = Returned 32 [] /\
  bo_arrays (ds_bo s) /\
  fake_dumb_ioctl true (DRM_IOCTL_MODE_CREATE_DUMB 2 100 32 0) (ds_kernel s)
  = (0, reply, tt) /\
  fake_dumb_ioctl true (DRM_IOCTL_MODE_DESTROY_DUMB (uint32 (reply_handle reply))) tt
  = (0, mk_create_dumb_reply 0 0 0, tt) /\
  exists s',
    (drv_dumb_bo_create false numPlanes unit (fake_dumb_ioctl true)
       100 2 DRV_FORMAT_ARGB8888 99 ;;
     drv_dumb_bo_destroy unit (fake_dumb_ioctl true)) s = Returned 0 s' /\
    ds_ioctls s'
    = [(DRM_IOCTL_MODE_CREATE_DUMB 2 100 32 0, 0);
       (DRM_IOCTL_MODE_DESTROY_DUMB 7, 0)].
Proof.
  intros numPlanes s reply.
  assert (H1 : false || (numPlanes DRV_FORMAT_ARGB8888 =? 1)%nat = true)
    by reflexivity.
  assert (H2 : drv_bpp_from_format false numPlanes DRV_FORMAT_ARGB8888 0 []
               = Returned 32 []) by reflexivity.
  assert (H3 : bo_arrays (ds_bo s)) by (repeat split).
  assert (H4 : fake_dumb_ioctl true (DRM_IOCTL_MODE_CREATE_DUMB 2 100 32 0)
                 (ds_kernel s) = (0, reply, tt)) by reflexivity.
  assert (H5 : fake_dumb_ioctl true
                 (DRM_IOCTL_MODE_DESTROY_DUMB (uint32 (reply_handle reply))) tt
               = (0, mk_create_dumb_reply 0 0 0, tt)) by reflexivity.
  repeat (split; [assumption|]).
  destruct (drv_dumb_bo_create_then_destroy false numPlanes unit
              (fake_dumb_ioctl true) 100 2 DRV_FORMAT_ARGB8888 99 32 [] s
              reply tt 0 (mk_create_dumb_reply 0 0 0) tt H1 H2 H3 H4 H5)
    as (s' & Hrun & _ & Hio & _).
  exists s'. split; [exact Hrun|]. rewrite Hio. reflexivity.
Defined.
